(** * Diet AI front end: the view-state pipeline of [src/App.tsx]

    A shallow embedding of the single React component file of the
    repository: the theme hook [useDarkMode], the fetch effect of [App],
    and the renderer (the JSX of [App], [PriceTag], [CardSkeleton]).

    - [JS]: the values of the language the program handles: binary64
      numbers with [toFixed] and the conversion to strings, JSON values,
      truthiness, property reads, exceptions.
    - The browser: [localStorage], the class list of the document root and
      [matchMedia], with storage that may refuse reads or writes.
    - [useDarkMode]: the initializer, the effect and the toggle, and the
      themes reachable by them.
    - The fetch: the three state cells, the setters, and the mount effect
      with its [try]/[catch]/[finally].
    - The renderer: the element tree as a function of the cells.
    - The properties, numbered as the claims of the specification. *)

From Stdlib Require Import ZArith QArith Qround Qabs Lia List Bool.
From Stdlib Require Import Strings.String Strings.Ascii.
From stdpp Require Import gmap strings.

Local Open Scope Z_scope.
Set Warnings "-register-all".

(* ===================================================================== *)
(** * JavaScript values *)
(* ===================================================================== *)

Module JS.

(** Exceptions the program can meet. *)
Inductive exn :=
| TypeError            (* property read on null/undefined, call of a non-function *)
| RangeError           (* toFixed with a digit count outside 0..100 *)
| SecurityError        (* storage access denied by the browser *)
| QuotaExceededError   (* storage write refused *)
| AxiosError           (* network failure, or a status rejected by validateStatus *)
| ReactError.          (* "Objects are not valid as a React child" *)

(** The outcome of evaluating an expression: a value or a thrown exception. *)
Inductive Result (A : Type) :=
| Ok (a : A)
| Throw (e : exn).
Arguments Ok {A} a.
Arguments Throw {A} e.

(** A JavaScript [number].  A finite binary64 is a rational; it is
    carried by its exact value.  The two zeros are identified: no operation
    used by this program ([typeof], [>], [toFixed], string conversion)
    tells them apart. *)
Inductive number :=
| NaN
| Infinity (negative : bool)
| Finite (q : Q).

(** JSON-shaped values, with [undefined] for absent properties. *)
Inductive jsval :=
| JUndefined
| JNull
| JBool (b : bool)
| JNum (n : number)
| JStr (s : string)
| JArr (elems : list jsval)
| JObj (fields : list (string * jsval)).

(** ** Decimal digits *)

Definition digit_char (d : Z) : ascii := ascii_of_nat (48 + Z.to_nat d).

(** Most significant digit first; [fuel] bounds the number of further
    digits, and [Z.log2 n] is always enough. *)
Fixpoint digits_aux (fuel : nat) (n : Z) (acc : list ascii) : list ascii :=
  let acc' := digit_char (n mod 10) :: acc in
  match fuel with
  | O => acc'
  | S f => if n <? 10 then acc' else digits_aux f (n / 10) acc'
  end.

Definition digits (n : Z) : list ascii :=
  digits_aux (Z.to_nat (Z.log2 n)) n [].

Definition decimal (n : Z) : string := string_of_list_ascii (digits n).

Definition is_digit (c : ascii) : bool :=
  let k := nat_of_ascii c in (48 <=? k)%nat && (k <=? 57)%nat.

Fixpoint all_digits (s : string) : bool :=
  match s with
  | EmptyString => true
  | String c s' => is_digit c && all_digits s'
  end.

(** ** Rational helpers *)

Definition pow2 (e : Z) : Q :=
  if 0 <=? e then inject_Z (2 ^ e) else 1 # Z.to_pos (2 ^ (- e)).

Definition pow10 (e : Z) : Q :=
  if 0 <=? e then inject_Z (10 ^ e) else 1 # Z.to_pos (10 ^ (- e)).

Definition Qlt_bool (a b : Q) : bool := negb (Qle_bool b a).

(** Nearest integer to a non-negative rational, the larger one on a tie. *)
Definition round_half_up (q : Q) : Z :=
  (2 * Qnum q + Z.pos (Qden q)) / (2 * Z.pos (Qden q)).

(** Nearest integer to a non-negative rational, the even one on a tie. *)
Definition round_half_even (q : Q) : Z :=
  let fl := Qfloor q in
  match Qcompare (q - inject_Z fl)%Q (1 # 2) with
  | Lt => fl
  | Gt => fl + 1
  | Eq => if Z.even fl then fl else fl + 1
  end.

(** [floor_log2 q] for [q > 0]. *)
Definition floor_log2 (q : Q) : Z :=
  let d := Z.log2 (Qnum q) - Z.log2 (Z.pos (Qden q)) in
  if Qle_bool (pow2 d) q then d else d - 1.

(** [floor_log10 q] for [q > 0]. *)
Definition floor_log10 (q : Q) : Z :=
  if Qle_bool 1 q then Z.of_nat (List.length (digits (Qfloor q))) - 1
  else
    let j := Z.of_nat (List.length (digits (Qfloor (/ q)%Q))) - 1 in
    if Qeq_bool (q * pow10 j)%Q 1 then - j else - (j + 1).

(** ** Binary64 *)

(** The number a decimal literal (in source text or in a JSON body)
    denotes: the nearest binary64, ties to the even significand, with
    gradual underflow and overflow to infinity. *)
Definition nearest_double (q : Q) : number :=
  if Qeq_bool q 0 then Finite 0
  else
    let a := Qabs q in
    let e := Z.max (floor_log2 a - 52) (-1074) in
    let m := round_half_even (a / pow2 e)%Q in
    let v := (inject_Z m * pow2 e)%Q in
    if Qle_bool (pow2 1024) v then Infinity (Qlt_bool q 0)
    else Finite (Qred (if Qlt_bool q 0 then (- v)%Q else v)).

Definition eq_number (x y : number) : bool :=
  match x, y with
  | Finite a, Finite b => Qeq_bool a b
  | Infinity s, Infinity t => Bool.eqb s t
  | _, _ => false   (* NaN is equal to nothing *)
  end.

(** A finite value is a binary64 when rounding leaves it unchanged. *)
Definition is_double (q : Q) : bool := eq_number (nearest_double q) (Finite q).

(** [x > y] of the language: false as soon as one side is NaN. *)
Definition gt (x y : number) : bool :=
  match x, y with
  | NaN, _ | _, NaN => false
  | Infinity sx, Infinity sy => negb sx && sy
  | Infinity sx, Finite _ => negb sx
  | Finite _, Infinity sy => sy
  | Finite a, Finite b => Qlt_bool b a
  end.

(** ** Number to string

    [Number::toString] of ECMA-262 in radix 10: the shortest decimal
    [s * 10^(n-k)] (with [k] digits in [s]) that reads back as the same
    binary64, the closest such [s] when there are several. *)

(** The candidates with [k] digits around [a > 0]: the multiple of
    [10^(n0-k)] just below [a] and the one just above. *)
Definition shortest_at (a : Q) (n0 : Z) (k : Z) : option (Z * Z) :=
  let scale := pow10 (n0 - k) in
  let lo := Qfloor (a / scale)%Q in
  let hi := lo + 1 in
  let ok s := eq_number (nearest_double (inject_Z s * scale)%Q) (Finite a) in
  let pick s := if Qle_bool (pow10 k) (inject_Z s) then (s / 10, n0 + 1) else (s, n0) in
  match ok lo, ok hi with
  | false, false => None
  | true, false => Some (pick lo)
  | false, true => Some (pick hi)
  | true, true =>
      let dlo := (a - inject_Z lo * scale)%Q in
      let dhi := (inject_Z hi * scale - a)%Q in
      match Qcompare dlo dhi with
      | Lt => Some (pick lo)
      | Gt => Some (pick hi)
      | Eq => Some (pick (if Z.even lo then lo else hi))
      end
  end.

Fixpoint shortest_from (fuel : nat) (a : Q) (n0 : Z) (k : Z) : Z * Z :=
  match shortest_at a n0 k with
  | Some sn => sn
  | None =>
      match fuel with
      | O => (Qfloor (a / pow10 (n0 - k))%Q, n0)
      | S f => shortest_from f a n0 (k + 1)
      end
  end.

(** The pair [(s, n)] for a finite [a > 0]; seventeen digits always
    identify a binary64. *)
Definition shortest (a : Q) : Z * Z :=
  shortest_from 16 a (floor_log10 a + 1) 1.

Definition zeros (n : Z) : list ascii := repeat "0"%char (Z.to_nat n).

Definition exponent_part (n : Z) : list ascii :=
  let e := n - 1 in
  "e"%char :: (if e <? 0 then "-"%char else "+"%char) :: digits (Z.abs e).

Definition format_shortest (s n : Z) : list ascii :=
  let ds := digits s in
  let k := Z.of_nat (List.length ds) in
  if (k <=? n) && (n <=? 21) then ds ++ zeros (n - k)
  else if (0 <? n) && (n <=? 21) then
    firstn (Z.to_nat n) ds ++ "."%char :: skipn (Z.to_nat n) ds
  else if (-6 <? n) && (n <=? 0) then
    "0"%char :: "."%char :: zeros (- n) ++ ds
  else if k =? 1 then ds ++ exponent_part n
  else firstn 1 ds ++ "."%char :: skipn 1 ds ++ exponent_part n.

Definition Number_toString (x : number) : string :=
  match x with
  | NaN => "NaN"
  | Infinity false => "Infinity"
  | Infinity true => "-Infinity"
  | Finite q =>
      if Qeq_bool q 0 then "0"
      else
        let '(s, n) := shortest (Qabs q) in
        let body := string_of_list_ascii (format_shortest s n) in
        if Qlt_bool q 0 then "-" +:+ body else body
  end.

(** ** Number.prototype.toFixed

    [x.toFixed(f)] of ECMA-262: a digit count outside 0..100 is a
    [RangeError]; a value that is not finite, or of magnitude [10^21] and
    more, is written as [Number::toString] writes it; otherwise [n] is the
    integer nearest to [x * 10^f], the larger one on a tie, and its digits
    are padded with zeros to [f + 1] and split before the last [f]. *)

Definition toFixed (x : number) (f : Z) : Result string :=
  if (f <? 0) || (100 <? f) then Throw RangeError
  else
    match x with
    | Finite q =>
        let sign := if Qlt_bool q 0 then "-" else "" in
        let a := Qabs q in
        if Qle_bool (pow10 21) a then Ok (sign +:+ Number_toString (Finite a))
        else
          let n := round_half_up (a * pow10 f)%Q in
          let m := digits n in
          if f =? 0 then Ok (sign +:+ string_of_list_ascii m)
          else
            let k := Z.of_nat (List.length m) in
            let m := if k <=? f then zeros (f + 1 - k) ++ m else m in
            let k := if k <=? f then f + 1 else k in
            let a := firstn (Z.to_nat (k - f)) m in
            let b := skipn (Z.to_nat (k - f)) m in
            Ok (sign +:+ string_of_list_ascii (a ++ "."%char :: b))
    | _ => Ok (Number_toString x)
    end.

(** The number written as the decimal fraction [num / 10^frac]. *)
Definition lit (num : Z) (frac : Z) : number :=
  nearest_double (inject_Z num * pow10 (- frac))%Q.

(** ** Dynamic operations on values *)

(** ToBoolean: the falsy values are [undefined], [null], [false], zero,
    NaN and the empty string. *)
Definition truthy (v : jsval) : bool :=
  match v with
  | JUndefined | JNull => false
  | JBool b => b
  | JNum NaN => false
  | JNum (Infinity _) => true
  | JNum (Finite q) => negb (Qeq_bool q 0)
  | JStr s => negb (String.eqb s "")
  | JArr _ | JObj _ => true
  end.

(** [a || b] *)
Definition js_or (a b : jsval) : jsval := if truthy a then a else b.

(** [a ?? b] *)
Definition nullish (a b : jsval) : jsval :=
  match a with
  | JUndefined | JNull => b
  | _ => a
  end.

(** [typeof v === 'number'] *)
Definition is_number (v : jsval) : bool :=
  match v with
  | JNum _ => true
  | _ => false
  end.

(** The own property [k] of a parsed object, whose names are distinct. *)
Fixpoint own_property (fields : list (string * jsval)) (k : string) : jsval :=
  match fields with
  | [] => JUndefined
  | (k', v) :: rest => if String.eqb k' k then v else own_property rest k
  end.

(** [v.k] for the data properties this program reads.  Reading a property
    of [null] or [undefined] throws; on a primitive or an array a name
    other than [length] finds nothing (the names read here, [items],
    [id], [title], [finalPrice], [calories], [proteinGrams],
    [discountPct], are not inherited from any prototype).  The length of
    a string counts its characters as this model has them. *)
Definition get (v : jsval) (k : string) : Result jsval :=
  match v with
  | JUndefined | JNull => Throw TypeError
  | JObj fields => Ok (own_property fields k)
  | JArr elems =>
      if String.eqb k "length" then Ok (JNum (Finite (inject_Z (Z.of_nat (List.length elems)))))
      else Ok JUndefined
  | JStr s =>
      if String.eqb k "length" then Ok (JNum (Finite (inject_Z (Z.of_nat (String.length s)))))
      else Ok JUndefined
  | JBool _ | JNum _ => Ok JUndefined
  end.

(** [v.toFixed(f)]: only a number has the method.  On [null] and
    [undefined] the property read throws, on any other JSON value the
    property is not callable. *)
Definition call_toFixed (v : jsval) (f : Z) : Result string :=
  match v with
  | JNum x => toFixed x f
  | _ => Throw TypeError
  end.

(** What React makes of a value placed among JSX children.  A string
    or a number becomes text, a boolean, [null] and [undefined] become
    nothing, an array stands for its elements one after the other, and an
    object is refused: React throws while it reconciles the parent. *)
Fixpoint valid_child (v : jsval) : bool :=
  match v with
  | JObj _ => false
  | JArr elems =>
      (fix all (l : list jsval) : bool :=
         match l with
         | [] => true
         | c :: rest => valid_child c && all rest
         end) elems
  | _ => true
  end.

Fixpoint child_text (v : jsval) : string :=
  match v with
  | JStr s => s
  | JNum x => Number_toString x
  | JArr elems =>
      (fix all (l : list jsval) : string :=
         match l with
         | [] => ""
         | c :: rest => child_text c +:+ all rest
         end) elems
  | _ => ""
  end.

(** The text a list of children shows. *)
Fixpoint text_content (children : list jsval) : string :=
  match children with
  | [] => ""
  | c :: rest => child_text c +:+ text_content rest
  end.

(** A child as React takes it up. *)
Definition child (v : jsval) : Result jsval :=
  if valid_child v then Ok v else Throw ReactError.

End JS.
Import JS.

(** ** A small exception monad over [Result] *)

Definition bind {A B} (r : Result A) (k : A -> Result B) : Result B :=
  match r with
  | Ok a => k a
  | Throw e => Throw e
  end.

Notation "'let!' x ':=' r 'in' k" := (bind r (fun x => k))
  (at level 10, x name, r at level 100, k at level 200).

Fixpoint mapM {A B} (f : A -> Result B) (l : list A) : Result (list B) :=
  match l with
  | [] => Ok []
  | a :: rest => let! b := f a in let! bs := mapM f rest in Ok (b :: bs)
  end.

(** [v.map(f)]: only an array has the method. *)
Definition call_map {B} (v : jsval) (f : jsval -> Result B) : Result (list B) :=
  match v with
  | JArr elems => mapM f elems
  | _ => Throw TypeError
  end.

(* ===================================================================== *)
(** * The browser the theme hook runs in *)
(* ===================================================================== *)

(** How [localStorage] answers: normally, refusing writes (quota
    exhausted), or refusing any access (storage blocked by the user's
    privacy settings). *)
Inductive storage_mode := StorageAvailable | StorageFull | StorageDenied.

Record Browser := {
  storage : storage_mode;
  localStorage : gmap string string;
  (** [document.documentElement.classList] *)
  classList : gset string;
  (** [window.matchMedia]: absent in old browsers, otherwise the
      [matches] field of the query list it returns for a query *)
  matchMedia : option (string -> bool);
}.

(** Where the component runs: [window] is undefined during server-side
    rendering. *)
Inductive Host :=
| NoWindow
| Window (b : Browser).

Definition with_localStorage (b : Browser) (m : gmap string string) : Browser :=
  {| storage := storage b; localStorage := m;
     classList := classList b; matchMedia := matchMedia b |}.

Definition with_classList (b : Browser) (c : gset string) : Browser :=
  {| storage := storage b; localStorage := localStorage b;
     classList := c; matchMedia := matchMedia b |}.

(** Code that runs against the browser: it may change it and may throw;
    what it changed before throwing stays changed. *)
Definition Eff (A : Type) : Type := Browser -> Result A * Browser.

Definition eff_seq {A} (m : Eff unit) (k : Eff A) : Eff A :=
  fun b =>
    match m b with
    | (Ok _, b') => k b'
    | (Throw e, b') => (Throw e, b')
    end.

(** [localStorage.getItem(k)]: the stored string, or [null]. *)
Definition getItem (k : string) (b : Browser) : Result (option string) :=
  match storage b with
  | StorageDenied => Throw SecurityError
  | StorageAvailable | StorageFull => Ok (localStorage b !! k)
  end.

(** [localStorage.setItem(k, v)] *)
Definition setItem (k v : string) : Eff unit :=
  fun b =>
    match storage b with
    | StorageDenied => (Throw SecurityError, b)
    | StorageFull => (Throw QuotaExceededError, b)
    | StorageAvailable => (Ok tt, with_localStorage b (<[k := v]> (localStorage b)))
    end.

(** [root.classList.add(c)] and [root.classList.remove(c)] *)
Definition classList_add (c : string) : Eff unit :=
  fun b => (Ok tt, with_classList b ({[c]} ∪ classList b)).

Definition classList_remove (c : string) : Eff unit :=
  fun b => (Ok tt, with_classList b (classList b ∖ {[c]})).

(** A string or [null] as a value. *)
Definition of_nullable (o : option string) : jsval :=
  match o with
  | Some s => JStr s
  | None => JNull
  end.

(* ===================================================================== *)
(** * [useDarkMode] *)
(* ===================================================================== *)

(** The initializer passed to [useState]. *)
Definition useDarkMode_init (h : Host) : Result jsval :=
  match h with
  | NoWindow => Ok (JBool false)
  | Window b =>
      let! saved := getItem "theme" b in
      if truthy (of_nullable saved)
      then Ok (JBool (match saved with Some s => String.eqb s "dark" | None => false end))
      else
        match matchMedia b with
        | None => Ok JUndefined
        | Some query => Ok (JBool (query "(prefers-color-scheme: dark)"))
        end
  end.

(** The effect that follows every change of [isDark] (and the mount). *)
Definition useDarkMode_effect (isDark : jsval) : Eff unit :=
  if truthy isDark
  then eff_seq (classList_add "dark") (setItem "theme" "dark")
  else eff_seq (classList_remove "dark") (setItem "theme" "light").

(** The click handler of the toggle button: [setIsDark(!isDark)]. *)
Definition toggle (isDark : jsval) : jsval := JBool (negb (truthy isDark)).

(** A mounted theme: the browser and the hook's state. *)
Record Theme := { browser : Browser; isDark : jsval }.

(** Mounting in a browser: resolve the initial value, then run the
    effect.  The pair holds the outcome and the browser as it was left. *)
Definition theme_mount (b : Browser) : Result jsval * Browser :=
  match useDarkMode_init (Window b) with
  | Throw e => (Throw e, b)
  | Ok d =>
      match useDarkMode_effect d b with
      | (Ok _, b') => (Ok d, b')
      | (Throw e, b') => (Throw e, b')
      end
  end.

(** One click on the toggle: the state flips, the effect runs. *)
Definition theme_click (t : Theme) : Result jsval * Browser :=
  let d := toggle (isDark t) in
  match useDarkMode_effect d (browser t) with
  | (Ok _, b') => (Ok d, b')
  | (Throw e, b') => (Throw e, b')
  end.

(** The themes a session can be in once a transition has completed. *)
Inductive theme_reachable : Theme -> Prop :=
| reach_mount b d b' :
    theme_mount b = (Ok d, b') ->
    theme_reachable {| browser := b'; isDark := d |}
| reach_click t d b' :
    theme_reachable t ->
    theme_click t = (Ok d, b') ->
    theme_reachable {| browser := b'; isDark := d |}.

(** The value the hook keeps under the key [theme] for a state. *)
Definition theme_name (isDark : jsval) : string :=
  if truthy isDark then "dark" else "light".

(** Memory, storage and the marker on the document root agree. *)
Definition theme_consistent (t : Theme) : Prop :=
  localStorage (browser t) !! "theme" = Some (theme_name (isDark t))
  /\ ("dark" ∈ classList (browser t) <-> truthy (isDark t) = true).

(* ===================================================================== *)
(** * The recommendation fetch *)
(* ===================================================================== *)

Definition default_base : string := "http://localhost:4000".

(** [const API = import.meta.env.VITE_API_BASE || 'http://localhost:4000'],
    where [env] is [import.meta.env], the variables the build exposes to
    the page. *)
Definition API (env : gmap string string) : string :=
  match env !! "VITE_API_BASE" with
  | Some s => if truthy (JStr s) then s else default_base
  | None => default_base
  end.

Inductive Method := GET | POST | PUT | DELETE.

Record Request := { method : Method; url : string }.

(** The one request of the page: [axios.get(`${API}/recommend/top?limit=8`)]. *)
Definition recommend_request (env : gmap string string) : Request :=
  {| method := GET; url := API env +:+ "/recommend/top?limit=8" |}.

(** What the network does with a request. *)
Inductive HttpOutcome :=
| NetworkFailure
| HttpResponse (status : Z) (body : jsval).

Record Response := { status_of : Z; data : jsval }.

(** axios settles the promise by its default [validateStatus]: a status
    in 200..299 resolves, every other one rejects, as does a failure of
    the transport. *)
Definition axios_settle (o : HttpOutcome) : Result Response :=
  match o with
  | NetworkFailure => Throw AxiosError
  | HttpResponse st body =>
      if (200 <=? st) && (st <? 300)
      then Ok {| status_of := st; data := body |}
      else Throw AxiosError
  end.

(** The three state cells of [App]. *)
Record AppState := {
  items : jsval;            (* useState<Item[]>([]) *)
  loading : bool;           (* useState(false) *)
  error : option string;    (* useState<string | null>(null) *)
}.

Definition initial_state : AppState :=
  {| items := JArr []; loading := false; error := None |}.

(** What the effect does that can be seen from outside, in the order in
    which it does it: a call of a setter, with the cells as the call
    leaves them, and a request handed to axios. *)
Inductive Event :=
| Became (a : AppState)
| Requested (r : Request).

(** The component instance while its effect runs: the current cells, the
    states it went through (latest first), the requests it sent, and the
    log of both in the order of the calls (oldest first).  Every call of
    a setter is recorded as a state of its own; React may render each of
    them or, batching the calls, only some. *)
Record Store := {
  now : AppState;
  past : list AppState;
  sent : list Request;
  log : list Event;
}.

Definition mounted : Store :=
  {| now := initial_state; past := []; sent := []; log := [] |}.

Definition Act (A : Type) : Type := Store -> Result A * Store.

Definition ret {A} (a : A) : Act A := fun s => (Ok a, s).

Definition lift {A} (r : Result A) : Act A := fun s => (r, s).

Definition andThen {A B} (m : Act A) (k : A -> Act B) : Act B :=
  fun s =>
    match m s with
    | (Ok a, s') => k a s'
    | (Throw e, s') => (Throw e, s')
    end.

Notation "'do!' x ':=' m 'in' k" := (andThen m (fun x => k))
  (at level 10, x name, m at level 100, k at level 200).
Notation "m ';;;' k" := (andThen m (fun _ => k))
  (at level 100, k at level 200, right associativity).

(** [try { body } catch (e) { handler }] *)
Definition try_catch {A} (body : Act A) (handler : exn -> Act A) : Act A :=
  fun s =>
    match body s with
    | (Ok a, s') => (Ok a, s')
    | (Throw e, s') => handler e s'
    end.

(** [try { body } finally { cleanup }]: the cleanup always runs; when it
    completes the outcome of the body stands. *)
Definition try_finally {A} (body : Act A) (cleanup : Act unit) : Act A :=
  fun s =>
    match body s with
    | (r, s') =>
        match cleanup s' with
        | (Ok _, s'') => (r, s'')
        | (Throw e, s'') => (Throw e, s'')
        end
    end.

Definition update (f : AppState -> AppState) : Act unit :=
  fun s =>
    (Ok tt,
     {| now := f (now s); past := now s :: past s; sent := sent s;
        log := log s ++ [Became (f (now s))] |}).

Definition setItems (v : jsval) : Act unit :=
  update (fun a => {| items := v; loading := loading a; error := error a |}).

Definition setLoading (b : bool) : Act unit :=
  update (fun a => {| items := items a; loading := b; error := error a |}).

Definition setError (e : option string) : Act unit :=
  update (fun a => {| items := items a; loading := loading a; error := e |}).

(** [await axios.get(url)]: the request leaves, the network answers. *)
Definition axios_get (network : Request -> HttpOutcome) (r : Request) : Act Response :=
  fun s =>
    (axios_settle (network r),
     {| now := now s; past := past s; sent := sent s ++ [r];
        log := log s ++ [Requested r] |}).

Definition failure_message : string := "Unable to load recommendations right now".

(** The body of the mount effect of [App]. *)
Definition fetch_effect (env : gmap string string)
    (network : Request -> HttpOutcome) : Act unit :=
  setLoading true ;;;
  setError None ;;;
  try_finally
    (try_catch
       (do! res := axios_get network (recommend_request env) in
        do! its := lift (get (data res) "items") in
        setItems (js_or its (JArr [])))
       (fun _ => setError (Some failure_message)))
    (setLoading false).

(** The store once the effect has run to its end. *)
Definition after_fetch (env : gmap string string)
    (network : Request -> HttpOutcome) : Result unit * Store :=
  fetch_effect env network mounted.

(** Every state the component has been in, oldest first. *)
Definition states (s : Store) : list AppState := rev (now s :: past s).

(** The view state of section 4.3 that a triple of cells stands for. *)
Inductive ViewState :=
| Loading
| Error (message : string)
| Ready (its : jsval).

Definition view_state (a : AppState) : ViewState :=
  if loading a then Loading
  else
    match error a with
    | Some m => Error m
    | None => Ready (items a)
    end.

(* ===================================================================== *)
(** * The renderer *)
(* ===================================================================== *)

(** The [Item] type of the source. *)
Record Item := {
  id : string;
  title : string;
  finalPrice : number;
  calories : option number;
  proteinGrams : option number;
  discountPct : option number;
}.

Definition optional (k : string) (o : option number) : list (string * jsval) :=
  match o with
  | Some x => [(k, JNum x)]
  | None => []
  end.

(** An [Item] as the object the page receives. *)
Definition js_of_Item (it : Item) : jsval :=
  JObj ([("id", JStr (id it)); ("title", JStr (title it));
         ("finalPrice", JNum (finalPrice it))]
        ++ optional "calories" (calories it)
        ++ optional "proteinGrams" (proteinGrams it)
        ++ optional "discountPct" (discountPct it)).

(** [typeof d === 'number' && d > 0] *)
Definition positive_number (d : jsval) : bool :=
  is_number d &&
  match d with
  | JNum x => gt x (Finite 0)
  | _ => false
  end.

Record PriceTagView := {
  (** the children of the price span: [$] and [price.toFixed(2)] *)
  price_span : list jsval;
  (** the children of the badge span, [-], the discount and [%], when
      the span is rendered *)
  discount_span : option (list jsval);
}.

Definition PriceTag (price discount : jsval) : Result PriceTagView :=
  let! fixed := call_toFixed price 2 in
  Ok {| price_span := [JStr "$"; JStr fixed];
        discount_span :=
          if positive_number discount
          then Some [JStr "-"; discount; JStr "%"]
          else None |}.

Record CardView := {
  card_key : jsval;
  card_title : jsval;
  (** the badge of the card header: [Save ], the discount and [%] *)
  save_span : option (list jsval);
  calories_span : list jsval;
  protein_span : list jsval;
  price_tag : PriceTagView;
}.

(** The props of one [article], as the callback of [items.map] reads
    them from an element in the body of [App]. *)
Record CardElement := {
  el_key : jsval;          (* key={p.id} *)
  el_title : jsval;        (* {p.title} *)
  el_discount : jsval;     (* p.discountPct *)
  el_calories : jsval;     (* {p.calories ?? '—'} *)
  el_protein : jsval;      (* {p.proteinGrams ?? '—'} *)
  el_price : jsval;        (* p.finalPrice *)
}.

Definition card_element (p : jsval) : Result CardElement :=
  let! k := get p "id" in
  let! t := get p "title" in
  let! d := get p "discountPct" in
  let! c := get p "calories" in
  let! g := get p "proteinGrams" in
  let! f := get p "finalPrice" in
  Ok {| el_key := k; el_title := t; el_discount := d;
        el_calories := nullish c (JStr "—");
        el_protein := nullish g (JStr "—");
        el_price := f |}.

(** What React renders for the element, going through the [article] in
    document order: the title, the badge of the header, the calories,
    the protein, and last the [PriceTag] component. *)
Definition render_card (el : CardElement) : Result CardView :=
  let! t := child (el_title el) in
  let! c := child (el_calories el) in
  let! g := child (el_protein el) in
  let! tag := PriceTag (el_price el) (el_discount el) in
  Ok {| card_key := el_key el;
        card_title := t;
        save_span :=
          if positive_number (el_discount el)
          then Some [JStr "Save "; el_discount el; JStr "%"]
          else None;
        calories_span := [c];
        protein_span := [g; JStr " g"];
        price_tag := tag |}.

(** The [article] rendered for one element of [items]. *)
Definition card (p : jsval) : Result CardView :=
  let! el := card_element p in
  render_card el.

Inductive GridChild :=
| CardSkeleton (key : nat)
| Article (c : CardView).

Record View := {
  toggle_label : string;
  banner : option (list jsval);
  grid : list GridChild;
  total_items : list jsval;
}.

(** What [App] shows for the current cells and theme, as far as the
    properties below look at it: the label of the toggle, the error
    banner, the children of the grid and the summary line.  The body of
    [App] runs first, reading the props of every element and the length of
    [items]; React then renders the elements, the cards in order and the
    summary after them. *)
Definition App_view (isDark : jsval) (a : AppState) : Result View :=
  let label := if truthy isDark then "Light" else "Dark" in
  let alert :=
    match error a with
    | Some e => if truthy (JStr e) then Some [JStr e] else None
    | None => None
    end in
  let skeletons := if loading a then map CardSkeleton (seq 0 6) else [] in
  let! elements :=
    if negb (loading a) then call_map (items a) card_element else Ok [] in
  let! len := get (items a) "length" in
  let! cards := mapM render_card elements in
  let! count := child len in
  Ok {| toggle_label := label;
        banner := alert;
        grid := skeletons ++ map Article cards;
        total_items := [JStr "Total items: "; count] |}.

(** The cards among the children of the grid. *)
Definition cards_of (g : list GridChild) : list CardView :=
  omap (fun c => match c with Article v => Some v | CardSkeleton _ => None end) g.

Definition skeletons_of (g : list GridChild) : list nat :=
  omap (fun c => match c with CardSkeleton k => Some k | Article _ => None end) g.

(* ===================================================================== *)
(** * Vocabulary of the properties *)
(* ===================================================================== *)

(** A fetch fails in the transport or by a status outside 200..299. *)
Definition fetch_failed (o : HttpOutcome) : bool :=
  match o with
  | NetworkFailure => true
  | HttpResponse st _ => negb ((200 <=? st) && (st <? 300))
  end.

(** A body without an [items] field, or with a falsy value in it. *)
Definition no_items (body : jsval) : bool :=
  match body with
  | JObj fields => negb (truthy (own_property fields "items"))
  | _ => true
  end.

(** A body whose properties cannot be read at all. *)
Definition nullish_body (body : jsval) : bool :=
  match body with
  | JUndefined | JNull => true
  | _ => false
  end.

(** The integer a list of decimal digits denotes, most significant
    digit first. *)
Definition chars_value (l : list ascii) : Z :=
  fold_left (fun v c => 10 * v + (Z.of_nat (nat_of_ascii c) - 48)) l 0.

Definition digits_value (s : string) : Z :=
  chars_value (list_ascii_of_string s).

Definition digit_list (l : list ascii) : Prop :=
  Forall (fun c => is_digit c = true) l.

(** What the operating system answers to the colour-scheme query;
    [undefined] when [matchMedia] does not exist. *)
Definition os_preference (b : Browser) : jsval :=
  match matchMedia b with
  | None => JUndefined
  | Some query => JBool (query "(prefers-color-scheme: dark)")
  end.

(** An optional numeric field as the value a property read finds. *)
Definition field (o : option number) : jsval :=
  match o with
  | Some x => JNum x
  | None => JUndefined
  end.

(** The text of the price, of the badge next to it and of the badge in
    the card header, for the card of an item. *)
Definition price_text (it : Item) : Result string :=
  let! c := card (js_of_Item it) in
  Ok (text_content (price_span (price_tag c))).

Definition discount_text (it : Item) : Result (option string) :=
  let! c := card (js_of_Item it) in
  Ok (text_content <$> discount_span (price_tag c)).

Definition save_text (it : Item) : Result (option string) :=
  let! c := card (js_of_Item it) in
  Ok (text_content <$> save_span c).

(** What the [try] block gets out of an answer: the value it passes to
    [setItems], or the exception that takes it to the [catch] block. *)
Definition fetched (o : HttpOutcome) : Result jsval :=
  let! res := axios_settle o in
  let! its := get (data res) "items" in
  Ok (js_or its (JArr [])).

(** The cells between the mount effect's first two calls and the answer. *)
Definition loading_state : AppState :=
  {| items := JArr []; loading := true; error := None |}.

(** The cells once the [try] or the [catch] block has run, before
    ([load = true]) and after ([load = false]) the [finally] block. *)
Definition settled_state (r : Result jsval) (load : bool) : AppState :=
  match r with
  | Ok v => {| items := v; loading := load; error := None |}
  | Throw _ => {| items := JArr []; loading := load; error := Some failure_message |}
  end.

(** The six skeleton keys. *)
Definition six : list nat := [0; 1; 2; 3; 4; 5]%nat.

(** ** Sample data *)

(** The item of the first end-to-end scenario. *)
Definition oat_bar : Item :=
  {| id := "1"; title := "Oat Bar"; finalPrice := lit 25 1;
     calories := Some (lit 150 0); proteinGrams := Some (lit 8 0);
     discountPct := Some (lit 10 0) |}.

Definition plain_item (price : number) (discount : option number) : Item :=
  {| id := "7"; title := "Rice Cake"; finalPrice := price;
     calories := None; proteinGrams := None; discountPct := discount |}.

(** A browser with working storage, nothing stored, and a system that
    prefers the scheme [dark] or not. *)
Definition fresh_browser (prefers_dark : bool) : Browser :=
  {| storage := StorageAvailable; localStorage := ∅; classList := ∅;
     matchMedia := Some (fun _ => prefers_dark) |}.

Definition stored_browser (theme : string) (prefers_dark : bool) : Browser :=
  {| storage := StorageAvailable; localStorage := {[ "theme" := theme ]};
     classList := ∅; matchMedia := Some (fun _ => prefers_dark) |}.

Definition blocked_browser : Browser :=
  {| storage := StorageDenied; localStorage := ∅; classList := ∅;
     matchMedia := Some (fun _ => false) |}.

Definition full_browser : Browser :=
  {| storage := StorageFull; localStorage := ∅; classList := ∅;
     matchMedia := Some (fun _ => true) |}.

(** A build environment that sets [API_BASE], the name without the
    [VITE_] prefix. *)
Definition misnamed_env : gmap string string :=
  {[ "API_BASE" := "https://api.example.com" ]}.

(** The cells of the Ready state holding [its]. *)
Definition ready_state (its : jsval) : AppState :=
  {| items := its; loading := false; error := None |}.

(** The body [{ items: [...] }] for a list of items. *)
Definition items_body (l : list Item) : jsval :=
  JObj [("items", JArr (map js_of_Item l))].

(** A status that axios resolves. *)
Definition success_status (st : Z) : bool := (200 <=? st) && (st <? 300).

(** An element of [items] that cannot be rendered: [null], [undefined],
    or a value whose [finalPrice] is not a number. *)
Definition unrenderable (p : jsval) : bool :=
  match get p "finalPrice" with
  | Ok f => negb (is_number f)
  | Throw _ => true
  end.

(** An element none of whose children React refuses. *)
Definition plain_children (p : jsval) : bool :=
  match card_element p with
  | Ok el =>
      valid_child (el_title el) && valid_child (el_calories el)
      && valid_child (el_protein el)
  | Throw _ => true
  end.

(** The browser a page load finds: the storage of an earlier visit, a new
    document and whatever the system now prefers. *)
Definition revisit (b : Browser) (classes : gset string)
    (media : option (string -> bool)) : Browser :=
  {| storage := storage b; localStorage := localStorage b;
     classList := classes; matchMedia := media |}.

(** A second item for the samples. *)
Definition rice_cake : Item := plain_item (lit 120 2) None.

(** Networks that answer every request the same way. *)
Definition offline : Request -> HttpOutcome := fun _ => NetworkFailure.

Definition answering (status : Z) (body : jsval) : Request -> HttpOutcome :=
  fun _ => HttpResponse status body.

(* ===================================================================== *)
(** * Properties *)
(* ===================================================================== *)

(** ** Decimal digits *)

Lemma is_digit_digit_char d : 0 <= d < 10 -> is_digit (digit_char d) = true.
Proof.
  intros H. assert (E : d = 0 \/ d = 1 \/ d = 2 \/ d = 3 \/ d = 4 \/ d = 5
                        \/ d = 6 \/ d = 7 \/ d = 8 \/ d = 9) by lia.
  repeat (destruct E as [-> | E]; [reflexivity |]). subst; reflexivity.
Qed.

Lemma digit_char_value d :
  0 <= d < 10 -> Z.of_nat (nat_of_ascii (digit_char d)) - 48 = d.
Proof.
  intros H. assert (E : d = 0 \/ d = 1 \/ d = 2 \/ d = 3 \/ d = 4 \/ d = 5
                        \/ d = 6 \/ d = 7 \/ d = 8 \/ d = 9) by lia.
  repeat (destruct E as [-> | E]; [reflexivity |]). subst; reflexivity.
Qed.

Lemma chars_value_from (l : list ascii) (v : Z) :
  fold_left (fun v c => 10 * v + (Z.of_nat (nat_of_ascii c) - 48)) l v
  = v * 10 ^ Z.of_nat (List.length l) + chars_value l.
Proof.
  unfold chars_value. revert v.
  induction l as [| c l IH]; intros v; simpl fold_left.
  - simpl. lia.
  - rewrite IH, (IH (10 * 0 + _)).
    replace (Z.of_nat (List.length (c :: l))) with (Z.succ (Z.of_nat (List.length l)))
      by (simpl List.length; lia).
    rewrite Z.pow_succ_r by lia. ring.
Qed.

Lemma chars_value_app (l1 l2 : list ascii) :
  chars_value (l1 ++ l2)
  = chars_value l1 * 10 ^ Z.of_nat (List.length l2) + chars_value l2.
Proof.
  unfold chars_value at 1. rewrite fold_left_app.
  fold (chars_value l1). apply chars_value_from.
Qed.

Lemma chars_value_zeros (k : Z) (l : list ascii) :
  chars_value (zeros k ++ l) = chars_value l.
Proof.
  unfold zeros. induction (Z.to_nat k) as [| n IH]; [reflexivity |].
  simpl repeat. simpl app. unfold chars_value in *. simpl fold_left. exact IH.
Qed.

Lemma digits_aux_spec (fuel : nat) : forall (n : Z) (acc : list ascii),
  0 <= n < 2 ^ (Z.of_nat fuel + 1) ->
  exists ds, digits_aux fuel n acc = ds ++ acc
             /\ ds <> [] /\ digit_list ds /\ chars_value ds = n.
Proof.
  assert (Last : forall n acc, 0 <= n < 10 ->
            exists ds, digit_char (n mod 10) :: acc = ds ++ acc
                       /\ ds <> [] /\ digit_list ds /\ chars_value ds = n).
  { intros n acc Hn. exists [digit_char (n mod 10)].
    rewrite Z.mod_small by lia.
    split; [reflexivity |]. split; [discriminate |]. split.
    - constructor; [now apply is_digit_digit_char | constructor].
    - unfold chars_value. simpl. rewrite digit_char_value; lia. }
  induction fuel as [| f IH]; intros n acc Hn.
  - simpl digits_aux. apply Last. simpl in Hn. lia.
  - simpl digits_aux. destruct (Z.ltb_spec n 10) as [Hlt | Hge].
    + apply Last. lia.
    + assert (Hdiv : 0 <= n / 10 < 2 ^ (Z.of_nat f + 1)).
      { split; [apply Z.div_pos; lia |].
        apply Z.div_lt_upper_bound; [lia |].
        replace (Z.of_nat (S f) + 1) with (Z.succ (Z.of_nat f + 1)) in Hn by lia.
        rewrite Z.pow_succ_r in Hn by lia. lia. }
      destruct (IH (n / 10) (digit_char (n mod 10) :: acc) Hdiv)
        as (ds & E & _ & Hd & Hv).
      exists (ds ++ [digit_char (n mod 10)]).
      rewrite E, <- app_assoc. split; [reflexivity |].
      split; [destruct ds; discriminate |]. split.
      * apply Forall_app. split; [exact Hd |].
        constructor; [| constructor].
        apply is_digit_digit_char. apply Z.mod_pos_bound. lia.
      * rewrite chars_value_app, Hv. unfold chars_value. simpl.
        rewrite digit_char_value by (apply Z.mod_pos_bound; lia).
        pose proof (Z.div_mod n 10). lia.
Qed.

Lemma digits_spec (n : Z) :
  0 <= n -> digits n <> [] /\ digit_list (digits n) /\ chars_value (digits n) = n.
Proof.
  intros Hn. unfold digits.
  destruct (digits_aux_spec (Z.to_nat (Z.log2 n)) n []) as (ds & E & Hne & Hd & Hv).
  - split; [exact Hn |]. rewrite Z2Nat.id by apply Z.log2_nonneg.
    destruct (Z.eq_dec n 0) as [-> | Hnz]; [reflexivity |].
    replace (Z.log2 n + 1) with (Z.succ (Z.log2 n)) by lia.
    apply Z.log2_spec. lia.
  - rewrite E, app_nil_r. auto.
Qed.

Lemma string_of_list_ascii_app (l1 l2 : list ascii) :
  string_of_list_ascii (l1 ++ l2)
  = string_of_list_ascii l1 +:+ string_of_list_ascii l2.
Proof. induction l1 as [| c l IH]; simpl; [reflexivity | now rewrite IH]. Qed.

Lemma all_digits_of_list (l : list ascii) :
  digit_list l -> all_digits (string_of_list_ascii l) = true.
Proof.
  induction 1 as [| c l Hc _ IH]; simpl; [reflexivity |].
  now rewrite Hc, IH.
Qed.

Lemma length_string_of_list (l : list ascii) :
  String.length (string_of_list_ascii l) = List.length l.
Proof. induction l as [| c l IH]; simpl; [reflexivity | now rewrite IH]. Qed.

Lemma digit_list_zeros (k : Z) : digit_list (zeros k).
Proof.
  unfold zeros, digit_list. induction (Z.to_nat k); simpl; constructor; auto.
Qed.

Lemma length_zeros (k : Z) : List.length (zeros k) = Z.to_nat k.
Proof. unfold zeros. apply repeat_length. Qed.

(** The padding and the split of [toFixed]: [f] digits after the point,
    at least one before, and together they spell [n]. *)
Lemma fixed_split (n f : Z) :
  0 <= n -> 1 <= f ->
  let m := digits n in
  let k := Z.of_nat (List.length m) in
  let m' := if k <=? f then zeros (f + 1 - k) ++ m else m in
  let k' := if k <=? f then f + 1 else k in
  let a := firstn (Z.to_nat (k' - f)) m' in
  let b := skipn (Z.to_nat (k' - f)) m' in
  a <> [] /\ digit_list a /\ digit_list b
  /\ List.length b = Z.to_nat f /\ chars_value (a ++ b) = n.
Proof.
  intros Hn Hf m k m' k' a b.
  destruct (digits_spec n Hn) as (Hne & Hd & Hv). fold m in Hne, Hd, Hv.
  assert (Hk : 1 <= k).
  { subst k. destruct m; [congruence | simpl List.length; lia]. }
  assert (Hlen : Z.of_nat (List.length m') = k' /\ digit_list m' /\ chars_value m' = n
                 /\ f < k').
  { subst m' k'. destruct (Z.leb_spec k f).
    - rewrite length_app, length_zeros, chars_value_zeros.
      repeat split; [fold k; lia | | exact Hv | lia].
      apply Forall_app. split; [apply digit_list_zeros | exact Hd].
    - repeat split; auto. }
  destruct Hlen as (Hl & Hd' & Hv' & Hfk).
  assert (La : List.length a = Z.to_nat (k' - f)).
  { subst a. rewrite length_take. lia. }
  split. { intros E. rewrite E in La. simpl in La. lia. }
  split. { subst a. now apply Forall_take. }
  split. { subst b. now apply Forall_drop. }
  split. { subst b. rewrite length_drop. lia. }
  subst a b. now rewrite take_drop.
Qed.

(** ** Rounding *)

Lemma round_half_up_nonneg (q : Q) : (0 <= q)%Q -> 0 <= round_half_up q.
Proof.
  intros H. unfold round_half_up. apply Z.div_pos; [| lia].
  unfold Qle in H. simpl in H. lia.
Qed.

(** [round_half_up q] is the integer nearest to [q], the larger of the
    two when [q] lies half way. *)
Lemma round_half_up_nearest (q : Q) :
  (inject_Z (round_half_up q) - (1 # 2) <= q)%Q
  /\ (q < inject_Z (round_half_up q) + (1 # 2))%Q.
Proof.
  destruct q as [a b]. unfold round_half_up. simpl Qnum. simpl Qden.
  pose proof (Z.div_mod (2 * a + Z.pos b) (2 * Z.pos b) ltac:(lia)) as E.
  pose proof (Z.mod_pos_bound (2 * a + Z.pos b) (2 * Z.pos b) ltac:(lia)) as B.
  set (n := (2 * a + Z.pos b) / (2 * Z.pos b)) in *.
  set (r := (2 * a + Z.pos b) mod (2 * Z.pos b)) in *.
  unfold Qle, Qlt, Qminus, Qplus, Qopp, inject_Z. simpl.
  split; nia.
Qed.

(** ** The shape of [toFixed] below [10^21] *)

Lemma toFixed_shape (q : Q) (f : Z) :
  1 <= f <= 100 -> (Qabs q < pow10 21)%Q ->
  exists ip fp : string,
    toFixed (Finite q) f
    = Ok ((if Qlt_bool q 0 then "-" else "") +:+ ip +:+ "." +:+ fp)
    /\ ip <> "" /\ all_digits ip = true /\ all_digits fp = true
    /\ String.length fp = Z.to_nat f
    /\ digits_value (ip +:+ fp) = round_half_up (Qabs q * pow10 f).
Proof.
  intros Hf Hq.
  assert (Hn : 0 <= round_half_up (Qabs q * pow10 f)).
  { apply round_half_up_nonneg. apply Qmult_le_0_compat; [apply Qabs_nonneg |].
    unfold pow10. destruct (Z.leb_spec 0 f); [| lia].
    unfold Qle. simpl. pose proof (Z.pow_pos_nonneg 10 f). lia. }
  pose proof (fixed_split _ f Hn ltac:(lia)) as S. cbv zeta in S.
  destruct S as (Ha & Da & Db & Lb & V).
  unfold toFixed.
  replace (f <? 0) with false by (symmetry; apply Z.ltb_ge; lia).
  replace (100 <? f) with false by (symmetry; apply Z.ltb_ge; lia).
  replace (f =? 0) with false by (symmetry; apply Z.eqb_neq; lia).
  replace (Qle_bool (pow10 21) (Qabs q)) with false.
  2:{ symmetry. apply not_true_is_false. intros E.
      apply Qle_bool_iff in E. now apply Qlt_not_le in Hq. }
  cbv zeta. simpl orb. cbv iota.
  eexists _, _. split.
  { rewrite string_of_list_ascii_app. simpl string_of_list_ascii. reflexivity. }
  split. { intros E. apply Ha.
           apply (f_equal list_ascii_of_string) in E.
           now rewrite list_ascii_of_string_of_list_ascii in E. }
  split; [now apply all_digits_of_list |].
  split; [now apply all_digits_of_list |].
  split; [now rewrite length_string_of_list |].
  unfold digits_value.
  now rewrite <- string_of_list_ascii_app, list_ascii_of_string_of_list_ascii.
Qed.

(** ** The number model on known values *)

Example double_9995 :
  is_double (9995 # 1000) = false
  /\ is_double (5626684784446013 # 562949953421312) = true.
Proof. split; vm_compute; reflexivity. Qed.

Example toString_known :
  Number_toString (lit 15 0) = "15"
  /\ Number_toString (lit 125 1) = "12.5"
  /\ Number_toString (lit 1 1) = "0.1"
  /\ Number_toString (lit (-12345) 2) = "-123.45"
  /\ Number_toString (lit 1 7) = "1e-7"
  /\ Number_toString (lit 1 (-21)) = "1e+21"
  /\ Number_toString (lit 123456789012345678901 0) = "123456789012345680000"
  /\ Number_toString (lit 1 (-400)) = "Infinity"
  /\ Number_toString NaN = "NaN".
Proof. repeat split; vm_compute; reflexivity. Qed.

Example toFixed_known :
  toFixed (lit 9 0) 2 = Ok "9.00"
  /\ toFixed (lit 25 1) 2 = Ok "2.50"
  /\ toFixed (lit 1005 3) 2 = Ok "1.00"
  /\ toFixed (lit 8345 3) 2 = Ok "8.35"
  /\ toFixed (lit 125 3) 2 = Ok "0.13"
  /\ toFixed (lit (-1) 3) 2 = Ok "-0.00"
  /\ toFixed (lit 123456 1) 0 = Ok "12346"
  /\ toFixed (lit 1 0) 101 = Throw RangeError
  /\ toFixed NaN 2 = Ok "NaN".
Proof. repeat split; vm_compute; reflexivity. Qed.

(** ** Cards of well-typed items *)

Lemma card_js_of_Item (it : Item) :
  card (js_of_Item it)
  = let! tag := PriceTag (JNum (finalPrice it)) (field (discountPct it)) in
    Ok {| card_key := JStr (id it);
          card_title := JStr (title it);
          save_span :=
            if positive_number (field (discountPct it))
            then Some [JStr "Save "; field (discountPct it); JStr "%"]
            else None;
          calories_span := [nullish (field (calories it)) (JStr "—")];
          protein_span := [nullish (field (proteinGrams it)) (JStr "—"); JStr " g"];
          price_tag := tag |}.
Proof.
  destruct it as [i t p c g d]. unfold card, js_of_Item. simpl.
  destruct c, g, d; reflexivity.
Qed.

Lemma positive_number_field (o : option number) :
  positive_number (field o)
  = match o with
    | Some d => gt d (Finite 0)
    | None => false
    end.
Proof. destruct o; reflexivity. Qed.

(** A call of [toFixed] with two digits never throws. *)
Lemma toFixed_2_total (x : number) : exists s, toFixed x 2 = Ok s.
Proof.
  destruct x as [| neg | q]; simpl; eauto.
  unfold toFixed. simpl. destruct (Qle_bool _ _); eauto.
Qed.

(** Every well-typed item has a card. *)
Lemma card_total (it : Item) : exists c, card (js_of_Item it) = Ok c.
Proof.
  rewrite card_js_of_Item. unfold PriceTag, call_toFixed.
  destruct (toFixed_2_total (finalPrice it)) as [s ->]. simpl. eauto.
Qed.

Lemma discount_text_eq (it : Item) :
  discount_text it
  = Ok (match discountPct it with
        | Some d =>
            if gt d (Finite 0) then Some ("-" +:+ Number_toString d +:+ "%") else None
        | None => None
        end).
Proof.
  unfold discount_text. rewrite card_js_of_Item. unfold PriceTag, call_toFixed.
  destruct (toFixed_2_total (finalPrice it)) as [s ->]. simpl.
  rewrite positive_number_field.
  destruct (discountPct it) as [d |]; [| reflexivity].
  destruct (gt d (Finite 0)); reflexivity.
Qed.

Lemma save_text_eq (it : Item) :
  save_text it
  = Ok (match discountPct it with
        | Some d =>
            if gt d (Finite 0) then Some ("Save " +:+ Number_toString d +:+ "%") else None
        | None => None
        end).
Proof.
  unfold save_text. rewrite card_js_of_Item. unfold PriceTag, call_toFixed.
  destruct (toFixed_2_total (finalPrice it)) as [s ->]. simpl.
  rewrite positive_number_field.
  destruct (discountPct it) as [d |]; [| reflexivity].
  destruct (gt d (Finite 0)); reflexivity.
Qed.

(** A badge whose text is given by cases on [discountPct] is there
    exactly for a discount that is present and positive. *)
Lemma badge_visible_iff (o : option number) (text : number -> string)
    (r : Result (option string)) :
  r = Ok (match o with
          | Some d => if gt d (Finite 0) then Some (text d) else None
          | None => None
          end) ->
  (exists t, r = Ok (Some t)) <-> (exists d, o = Some d /\ gt d (Finite 0) = true).
Proof.
  intros ->. destruct o as [d |].
  - destruct (gt d (Finite 0)) eqn:G; split.
    + intros _. now exists d.
    + intros _. eauto.
    + intros [t E]. discriminate.
    + intros (d' & E & G'). congruence.
  - split; [intros [t E]; discriminate | intros (d & E & _); discriminate].
Qed.

(** C3. On the card of every item the discount badge next to the price is
    rendered if and only if [discountPct] is present and greater than
    zero (an absent field and a value of zero suppress it), and when
    rendered its text is a minus sign, the percentage and a percent sign,
    "-15%" for a discount of 15.  The badge in the card header obeys the
    same condition and reads "Save 15%". *)
Theorem C3_discount_badge_iff_positive (it : Item) :
  ((exists t, discount_text it = Ok (Some t))
   <-> (exists d, discountPct it = Some d /\ gt d (Finite 0) = true))
  /\ discount_text it
     = Ok (match discountPct it with
           | Some d =>
               if gt d (Finite 0)
               then Some ("-" +:+ Number_toString d +:+ "%") else None
           | None => None
           end)
  /\ ((exists t, save_text it = Ok (Some t))
      <-> (exists d, discountPct it = Some d /\ gt d (Finite 0) = true))
  /\ save_text it
     = Ok (match discountPct it with
           | Some d =>
               if gt d (Finite 0)
               then Some ("Save " +:+ Number_toString d +:+ "%") else None
           | None => None
           end)
  /\ discount_text (plain_item (lit 9 0) (Some (lit 15 0))) = Ok (Some "-15%")
  /\ discount_text (plain_item (lit 9 0) (Some (lit 0 0))) = Ok None
  /\ discount_text (plain_item (lit 9 0) None) = Ok None.
Proof.
  split; [| split; [| split; [| split]]].
  - exact (badge_visible_iff _ _ _ (discount_text_eq it)).
  - apply discount_text_eq.
  - exact (badge_visible_iff _ _ _ (save_text_eq it)).
  - apply save_text_eq.
  - repeat split; vm_compute; reflexivity.
Qed.

Lemma append_empty_r (s : string) : s +:+ "" = s.
Proof.
  induction s as [| c s IH]; [reflexivity |].
  exact (f_equal (String c) IH).
Qed.

Lemma price_text_eq (it : Item) :
  price_text it
  = let! s := toFixed (finalPrice it) 2 in Ok ("$" +:+ s).
Proof.
  unfold price_text. rewrite card_js_of_Item. unfold PriceTag, call_toFixed.
  destruct (toFixed (finalPrice it) 2) as [s | e]; [| reflexivity].
  cbn [bind price_tag price_span text_content].
  now rewrite append_empty_r.
Qed.

(** C9 (as amended). For every item whose price is finite and below
    [10^21] in magnitude, the price is rendered as the currency prefix, a
    minus sign when the price is negative, at least one integer digit, a
    point and exactly two fraction digits; the digits spell the number of
    hundredths nearest to the exact binary value of the price, the larger
    one on a tie.  9 renders "$9.00"; the binary64 written 9.995 lies below
    9.995 and renders "$9.99". *)
Theorem C9_price_two_fraction_digits (it : Item) (q : Q) :
  finalPrice it = Finite q ->
  (Qabs q < pow10 21)%Q ->
  (exists ip fp : string,
     price_text it
     = Ok ("$" +:+ (if Qlt_bool q 0 then "-" else "") +:+ ip +:+ "." +:+ fp)
     /\ ip <> "" /\ all_digits ip = true /\ all_digits fp = true
     /\ String.length fp = 2%nat
     /\ (inject_Z (digits_value (ip +:+ fp)) - (1 # 2) <= Qabs q * pow10 2)%Q
     /\ (Qabs q * pow10 2 < inject_Z (digits_value (ip +:+ fp)) + (1 # 2))%Q)
  /\ price_text (plain_item (lit 9 0) None) = Ok "$9.00"
  /\ price_text (plain_item (lit 9995 3) None) = Ok "$9.99".
Proof.
  intros Hp Hq. split.
  - destruct (toFixed_shape q 2 ltac:(lia) Hq)
      as (ip & fp & E & Hip & Dip & Dfp & Lfp & V).
    exists ip, fp. rewrite V.
    destruct (round_half_up_nearest (Qabs q * pow10 2)) as [Lo Hi].
    repeat split; try assumption.
    rewrite price_text_eq, Hp, E. reflexivity.
  - split; vm_compute; reflexivity.
Qed.

Lemma C9_price_two_fraction_digits_witness :
  exists ip fp : string,
    price_text oat_bar = Ok ("$" +:+ "" +:+ ip +:+ "." +:+ fp)
    /\ String.length fp = 2%nat.
Proof.
  destruct (C9_price_two_fraction_digits oat_bar (5 # 2))
    as [(ip & fp & E & _ & _ & _ & L & _) _].
  - vm_compute. reflexivity.
  - vm_compute. reflexivity.
  - exists ip, fp. split; [exact E | exact L].
Defined.

(** C9, the claim as written fails: the number written 9.995 renders
    "$9.99", not "$10.00", and a price of [10^21] renders without any
    fraction digit. *)
Lemma C9_counterexample :
  lit 9995 3 = Finite (5626684784446013 # 562949953421312)
  /\ (5626684784446013 # 562949953421312 < 9995 # 1000)%Q
  /\ price_text (plain_item (lit 9995 3) None) = Ok "$9.99"
  /\ price_text (plain_item (lit 9995 3) None) <> Ok "$10.00"
  /\ price_text (plain_item (lit 1 (-21)) None) = Ok "$1e+21".
Proof.
  assert (E : price_text (plain_item (lit 9995 3) None) = Ok "$9.99")
    by (vm_compute; reflexivity).
  split; [vm_compute; reflexivity |]. split; [reflexivity |].
  split; [exact E |]. split; [rewrite E; discriminate |].
  vm_compute. reflexivity.
Qed.

(** ** The theme hook *)

Lemma getItem_readable (b : Browser) (k : string) :
  storage b <> StorageDenied -> getItem k b = Ok (localStorage b !! k).
Proof. unfold getItem. destruct (storage b); congruence. Qed.

Lemma useDarkMode_init_readable (b : Browser) :
  storage b <> StorageDenied ->
  useDarkMode_init (Window b)
  = Ok (match localStorage b !! "theme" with
        | Some s => if String.eqb s "" then os_preference b
                    else JBool (String.eqb s "dark")
        | None => os_preference b
        end).
Proof.
  intros H. unfold useDarkMode_init. rewrite (getItem_readable b "theme" H).
  unfold bind, os_preference.
  destruct (localStorage b !! "theme") as [s |]; simpl.
  - destruct (String.eqb s ""); simpl; [| reflexivity].
    destruct (matchMedia b); reflexivity.
  - destruct (matchMedia b); reflexivity.
Qed.

(** C4 (as amended). Initial theme resolution, when storage can be read:
    without a window the result is light and nothing else is consulted;
    a stored value that is not the empty string yields dark exactly when
    it equals "dark" and light otherwise; with no stored value, or the
    empty string stored, the colour-scheme preference of the system
    decides, and where [matchMedia] does not exist the result is falsy,
    hence light. *)
Theorem C4_initial_theme_resolution (b : Browser) :
  storage b <> StorageDenied ->
  useDarkMode_init NoWindow = Ok (JBool false)
  /\ (forall s, localStorage b !! "theme" = Some s -> s <> "" ->
        useDarkMode_init (Window b) = Ok (JBool (String.eqb s "dark"))
        /\ (String.eqb s "dark" = true <-> s = "dark"))
  /\ (localStorage b !! "theme" = None \/ localStorage b !! "theme" = Some "" ->
        useDarkMode_init (Window b) = Ok (os_preference b)
        /\ (forall query, matchMedia b = Some query ->
              os_preference b = JBool (query "(prefers-color-scheme: dark)"))
        /\ (matchMedia b = None -> truthy (os_preference b) = false)).
Proof.
  intros H. split; [reflexivity |]. split.
  - intros s E Hs. rewrite (useDarkMode_init_readable b H), E.
    destruct (String.eqb_spec s ""); [contradiction |].
    split; [reflexivity | apply String.eqb_eq].
  - intros E. rewrite (useDarkMode_init_readable b H). split.
    + destruct E as [-> | ->]; reflexivity.
    + unfold os_preference. split.
      * intros query ->. reflexivity.
      * intros ->. reflexivity.
Qed.

Lemma C4_initial_theme_resolution_witness :
  useDarkMode_init (Window (stored_browser "dark" false)) = Ok (JBool true)
  /\ useDarkMode_init (Window (stored_browser "light" true)) = Ok (JBool false)
  /\ useDarkMode_init (Window (fresh_browser true)) = Ok (JBool true).
Proof.
  split; [| split].
  - destruct (C4_initial_theme_resolution (stored_browser "dark" false))
      as (_ & Stored & _); [discriminate |].
    destruct (Stored "dark") as [E _]; [reflexivity | discriminate | exact E].
  - destruct (C4_initial_theme_resolution (stored_browser "light" true))
      as (_ & Stored & _); [discriminate |].
    destruct (Stored "light") as [E _]; [reflexivity | discriminate | exact E].
  - destruct (C4_initial_theme_resolution (fresh_browser true))
      as (_ & _ & Absent); [discriminate |].
    destruct Absent as [E _]; [left; reflexivity | exact E].
Defined.

(** C4, the claim as written fails: the empty string is a stored value
    other than "dark", and with it the result is dark when the system
    prefers dark. *)
Lemma C4_counterexample :
  localStorage (stored_browser "" true) !! "theme" = Some ""
  /\ "" <> "dark"
  /\ useDarkMode_init (Window (stored_browser "" true)) = Ok (JBool true)
  /\ truthy (JBool true) = true.
Proof. repeat split; try reflexivity. discriminate. Qed.

(** C10. A stored theme that is the empty string is treated like an
    absent one: resolution falls through to the colour-scheme preference
    of the system, and gives what it gives once the key is removed. *)
Theorem C10_empty_stored_theme_falls_through (b : Browser) :
  storage b <> StorageDenied ->
  localStorage b !! "theme" = Some "" ->
  useDarkMode_init (Window b) = Ok (os_preference b)
  /\ useDarkMode_init (Window b)
     = useDarkMode_init
         (Window (with_localStorage b (delete "theme" (localStorage b)))).
Proof.
  intros H E. rewrite (useDarkMode_init_readable b H), E. split; [reflexivity |].
  rewrite useDarkMode_init_readable by exact H.
  simpl localStorage. rewrite lookup_delete_eq. reflexivity.
Qed.

Lemma C10_empty_stored_theme_falls_through_witness :
  useDarkMode_init (Window (stored_browser "" true)) = Ok (JBool true).
Proof.
  destruct (C10_empty_stored_theme_falls_through (stored_browser "" true))
    as [E _]; [discriminate | reflexivity | exact E].
Defined.

(** What the effect leaves on the document root. *)
Lemma effect_marker (d : jsval) (b : Browser) :
  classList (snd (useDarkMode_effect d b))
  = if truthy d then {["dark"]} ∪ classList b else classList b ∖ {["dark"]}.
Proof.
  unfold useDarkMode_effect, eff_seq, classList_add, classList_remove, setItem.
  destruct (truthy d); simpl; destruct (storage b); reflexivity.
Qed.

Lemma effect_completes (d : jsval) (b : Browser) :
  storage b = StorageAvailable ->
  useDarkMode_effect d b
  = (Ok tt,
     {| storage := StorageAvailable;
        localStorage := <["theme" := theme_name d]> (localStorage b);
        classList := if truthy d then {["dark"]} ∪ classList b
                     else classList b ∖ {["dark"]};
        matchMedia := matchMedia b |}).
Proof.
  intros H.
  unfold useDarkMode_effect, eff_seq, classList_add, classList_remove, setItem,
    theme_name, with_localStorage, with_classList.
  destruct (truthy d); simpl; rewrite H; reflexivity.
Qed.

Lemma effect_throws (d : jsval) (b : Browser) :
  storage b <> StorageAvailable ->
  exists e,
    useDarkMode_effect d b
    = (Throw e,
       with_classList b (if truthy d then {["dark"]} ∪ classList b
                         else classList b ∖ {["dark"]})).
Proof.
  intros H.
  unfold useDarkMode_effect, eff_seq, classList_add, classList_remove, setItem.
  destruct (truthy d); simpl; destruct (storage b); try congruence; eauto.
Qed.

(** C6 (as amended). The storage operations of the theme hook are not
    guarded.  Resolution throws exactly when the read of storage throws,
    instead of falling through to the next tier, and yields a value
    otherwise; the effect completes exactly when the write succeeds, and
    when the write throws the exception leaves the effect, after the
    marker on the document root has been set for the state and with the
    stored value unchanged. *)
Theorem C6_storage_failures_propagate (b : Browser) (d : jsval) :
  (useDarkMode_init (Window b) = Throw SecurityError <-> storage b = StorageDenied)
  /\ (storage b <> StorageDenied <-> exists v, useDarkMode_init (Window b) = Ok v)
  /\ (fst (useDarkMode_effect d b) = Ok tt <-> storage b = StorageAvailable)
  /\ (storage b <> StorageAvailable <->
      exists e, useDarkMode_effect d b
                = (Throw e,
                   with_classList b (if truthy d then {["dark"]} ∪ classList b
                                     else classList b ∖ {["dark"]}))).
Proof.
  assert (Init : storage b = StorageDenied ->
                 useDarkMode_init (Window b) = Throw SecurityError).
  { intros H. unfold useDarkMode_init, getItem. now rewrite H. }
  split; [| split; [| split]].
  - split; [| exact Init]. intros E.
    destruct (storage b) eqn:S; try reflexivity;
      rewrite useDarkMode_init_readable in E by congruence; discriminate.
  - split.
    + intros H. rewrite (useDarkMode_init_readable b H). eauto.
    + intros [v E] S. rewrite (Init S) in E. discriminate.
  - split.
    + intros E. destruct (storage b) eqn:S; [reflexivity | |];
        destruct (effect_throws d b ltac:(congruence)) as [e T];
        rewrite T in E; discriminate.
    + intros S. now rewrite (effect_completes d b S).
  - split; [apply effect_throws |].
    intros [e T] S. rewrite (effect_completes d b S) in T. discriminate.
Qed.

(** C6, the claim as written fails: with storage blocked the initializer
    throws, and with storage full the effect throws, at mount and at a
    click. *)
Lemma C6_counterexample :
  useDarkMode_init (Window blocked_browser) = Throw SecurityError
  /\ fst (useDarkMode_effect (JBool true) full_browser) = Throw QuotaExceededError
  /\ fst (theme_mount full_browser) = Throw QuotaExceededError
  /\ fst (theme_click {| browser := full_browser; isDark := JBool true |})
     = Throw QuotaExceededError.
Proof. repeat split; reflexivity. Qed.

Lemma effect_consistent (d : jsval) (b b' : Browser) (u : unit) :
  useDarkMode_effect d b = (Ok u, b') ->
  theme_consistent {| browser := b'; isDark := d |}.
Proof.
  intros E. destruct (storage b) eqn:S.
  - rewrite (effect_completes d b S) in E. inversion E; subst; clear E.
    unfold theme_consistent. simpl. split; [apply lookup_insert_eq |].
    destruct (truthy d); split.
    + reflexivity.
    + intros _. set_solver.
    + intros In. apply elem_of_difference in In as [_ Out].
      exfalso. apply Out. now apply elem_of_singleton.
    + discriminate.
  - destruct (effect_throws d b ltac:(congruence)) as [e T].
    rewrite T in E. discriminate.
  - destruct (effect_throws d b ltac:(congruence)) as [e T].
    rewrite T in E. discriminate.
Qed.

(** Every reachable theme is what a completed run of the effect left,
    for the state it holds. *)
Lemma reachable_after_effect (t : Theme) :
  theme_reachable t ->
  exists b0 u, useDarkMode_effect (isDark t) b0 = (Ok u, browser t).
Proof.
  intros R. destruct R as [b d b' M | t d b' _ C]; simpl.
  - unfold theme_mount in M.
    destruct (useDarkMode_init (Window b)) as [d0 | e]; [| discriminate].
    destruct (useDarkMode_effect d0 b) as [[u | e] b0] eqn:E; [| discriminate].
    inversion M; subst. eauto.
  - unfold theme_click in C.
    destruct (useDarkMode_effect (toggle (isDark t)) (browser t))
      as [[u | e] b0] eqn:E; [| discriminate].
    inversion C; subst. eauto.
Qed.

(** With working storage the mount and every click complete. *)
Lemma theme_mount_completes (b : Browser) :
  storage b = StorageAvailable ->
  exists d b', theme_mount b = (Ok d, b') /\ storage b' = StorageAvailable.
Proof.
  intros S. unfold theme_mount.
  rewrite useDarkMode_init_readable by congruence.
  rewrite effect_completes by exact S. eauto.
Qed.

Lemma theme_click_completes (t : Theme) :
  storage (browser t) = StorageAvailable ->
  exists b', theme_click t = (Ok (toggle (isDark t)), b')
             /\ storage b' = StorageAvailable.
Proof.
  intros S. unfold theme_click. rewrite effect_completes by exact S. eauto.
Qed.

(** A transition completes only where storage takes the write. *)
Lemma reachable_storage_available (t : Theme) :
  theme_reachable t -> storage (browser t) = StorageAvailable.
Proof.
  intros R. destruct (reachable_after_effect t R) as (b0 & u & E).
  destruct (storage b0) eqn:S.
  - rewrite (effect_completes _ b0 S) in E. now inversion E.
  - destruct (effect_throws (isDark t) b0 ltac:(congruence)) as [e T]. congruence.
  - destruct (effect_throws (isDark t) b0 ltac:(congruence)) as [e T]. congruence.
Qed.







(** The fourth end-to-end scenario: nothing stored, the system prefers
    dark. *)
Example first_load_dark :
  exists b', theme_mount (fresh_browser true) = (Ok (JBool true), b')
             /\ localStorage b' !! "theme" = Some "dark"
             /\ "dark" ∈ classList b'.
Proof.
  eexists. split; [reflexivity |]. split; [reflexivity |]. simpl. set_solver.
Qed.

(** ** The fetch effect *)

Lemma fetched_failed (o : HttpOutcome) :
  fetch_failed o = true -> fetched o = Throw AxiosError.
Proof.
  unfold fetched, fetch_failed, axios_settle. destruct o as [| st body].
  - reflexivity.
  - intros H. apply negb_true_iff in H. now rewrite H.
Qed.

(** A value kept by [its || []] has a [length] to read. *)
Lemma length_of_kept (its : jsval) :
  exists len, get (js_or its (JArr [])) "length" = Ok len.
Proof.
  unfold js_or. destruct (truthy its) eqn:T; [| simpl; eauto].
  destruct its; simpl in *; try discriminate; eauto.
Qed.

Lemma length_of_fetched (o : HttpOutcome) (load : bool) :
  exists len, get (items (settled_state (fetched o) load)) "length" = Ok len.
Proof.
  unfold fetched. destruct (axios_settle o) as [res | e]; simpl; [| eauto].
  destruct (get (data res) "items") as [its | e]; simpl; [| eauto].
  apply length_of_kept.
Qed.

(** While the loading flag is up the grid holds the six skeletons and no
    card, whatever the cells hold: the elements of [items] are not looked
    at, only its length is. *)
Lemma loading_view (isDark : jsval) (a : AppState) (len : jsval) :
  loading a = true ->
  get (items a) "length" = Ok len ->
  valid_child len = true ->
  exists v, App_view isDark a = Ok v
            /\ grid v = map CardSkeleton six
            /\ skeletons_of (grid v) = six /\ cards_of (grid v) = [].
Proof.
  intros L G V. unfold App_view, child. rewrite L, G. simpl. rewrite V.
  eexists. split; [reflexivity |]. simpl. auto.
Qed.

Lemma loading_view_inv (isDark : jsval) (a : AppState) (v : View) :
  loading a = true ->
  App_view isDark a = Ok v ->
  skeletons_of (grid v) = six /\ cards_of (grid v) = [].
Proof.
  intros L. unfold App_view. rewrite L. simpl.
  destruct (get (items a) "length") as [len | e]; simpl; [| discriminate].
  destruct (child len) as [n | e]; simpl; [| discriminate].
  intros E. inversion E. simpl. auto.
Qed.

(** The view of empty cells: no skeleton, no card, a count of zero. *)
Lemma empty_view (isDark : jsval) (e : option string) :
  exists v,
    App_view isDark {| items := JArr []; loading := false; error := e |} = Ok v
    /\ banner v = match e with
                  | Some m => if truthy (JStr m) then Some [JStr m] else None
                  | None => None
                  end
    /\ grid v = []
    /\ text_content (total_items v) = "Total items: 0".
Proof.
  unfold App_view. simpl. eexists. split; [reflexivity |]. simpl.
  repeat split; reflexivity.
Qed.

Lemma items_of_lenient_body (body : jsval) :
  no_items body = true -> nullish_body body = false ->
  exists its, get body "items" = Ok its /\ truthy its = false.
Proof.
  destruct body as [| | b | n | s | l | fields]; simpl; try discriminate; eauto.
  intros H _. apply negb_true_iff in H. eauto.
Qed.

Lemma API_eq (env : gmap string string) :
  API env
  = match env !! "VITE_API_BASE" with
    | Some base => if String.eqb base "" then "http://localhost:4000" else base
    | None => "http://localhost:4000"
    end.
Proof.
  unfold API, default_base. destruct (env !! "VITE_API_BASE") as [base |];
    [| reflexivity].
  simpl. now destruct (String.eqb base "").
Qed.

(** From here on the build environment and the network are fixed but
    arbitrary. *)
Section FetchEffect.

Variable env : gmap string string.
Variable network : Request -> HttpOutcome.

(** The effect always runs to its end, and leaves this store. *)
Lemma after_fetch_eq :
  let r := fetched (network (recommend_request env)) in
  after_fetch env network
  = (Ok tt,
     {| now := settled_state r false;
        past := [settled_state r true; loading_state; loading_state; initial_state];
        sent := [recommend_request env];
        log := [Became loading_state; Became loading_state;
                Requested (recommend_request env);
                Became (settled_state r true);
                Became (settled_state r false)] |}).
Proof.
  unfold after_fetch, fetch_effect, fetched.
  unfold andThen, try_finally, try_catch, axios_get, lift, setLoading, setError,
    setItems, update, mounted. simpl.
  destruct (axios_settle (network (recommend_request env))) as [res | e]; simpl;
    [| reflexivity].
  destruct (get (data res) "items") as [its | e]; reflexivity.
Qed.

(** C1. For every failed fetch, by the network or by a status outside
    200..299, the effect ends without throwing in the Error state: the
    banner shows exactly "Unable to load recommendations right now", the
    items stay empty in every state gone through so the grid has no card,
    and the summary reads 0.  Every state on the way renders without
    throwing. *)
Theorem C1_failed_fetch_shows_banner :
  fetch_failed (network (recommend_request env)) = true ->
  exists s,
    after_fetch env network = (Ok tt, s)
    /\ now s = {| items := JArr []; loading := false;
                  error := Some "Unable to load recommendations right now" |}
    /\ view_state (now s) = Error "Unable to load recommendations right now"
    /\ Forall (fun a => items a = JArr []) (states s)
    /\ (forall isDark a, In a (states s) -> exists v, App_view isDark a = Ok v)
    /\ (forall isDark, exists v,
          App_view isDark (now s) = Ok v
          /\ text_content <$> banner v
             = Some "Unable to load recommendations right now"
          /\ grid v = []
          /\ text_content (total_items v) = "Total items: 0").
Proof.
  intros F. pose proof after_fetch_eq as E. cbv zeta in E.
  rewrite (fetched_failed _ F) in E. simpl settled_state in E.
  eexists. split; [exact E |]. simpl now. unfold states. simpl.
  split; [reflexivity |]. split; [reflexivity |].
  split; [repeat constructor |]. split.
  - intros d a [<- | [<- | [<- | [<- | [<- | []]]]]]; unfold App_view; simpl; eauto.
  - intros d. destruct (empty_view d (Some failure_message)) as (v & V & B & G & T).
    exists v. split; [exact V |]. rewrite B. auto.
Qed.

(** C2 (as amended). The cells start idle, not Loading: the loading flag
    is false, there are no items and no error, and the first render shows
    neither skeletons nor cards.  The mount effect then raises the flag
    unconditionally, as its first call and before the single request
    leaves: the log of the effect is the two calls that enter Loading,
    then the request, then the calls that settle.  Until the fetch
    settles the grid holds the six skeletons and no card, and so does
    every render of a state with the flag up (the state between the
    answer and the end of the effect renders, unless the answer gave
    [items] an object for its [length], which React refuses).  The effect
    ends in Ready or in Error: in Error when the fetch failed, and in
    Ready only when it succeeded. *)
Theorem C2_loading_entered_by_mount_effect :
  view_state initial_state = Ready (JArr [])
  /\ (forall isDark, exists v,
        App_view isDark initial_state = Ok v /\ grid v = [])
  /\ (exists s mid final,
        after_fetch env network = (Ok tt, s)
        /\ log s = [Became loading_state; Became loading_state;
                    Requested (recommend_request env);
                    Became mid; Became final]
        /\ states s = [initial_state; loading_state; loading_state; mid; final]
        /\ sent s = [recommend_request env]
        /\ view_state loading_state = Loading
        /\ view_state mid = Loading
        /\ (view_state final = Error failure_message
            \/ exists its, view_state final = Ready its)
        /\ (fetch_failed (network (recommend_request env)) = true ->
            view_state final = Error failure_message)
        /\ (forall its, view_state final = Ready its ->
            fetch_failed (network (recommend_request env)) = false)
        /\ (forall isDark, exists v,
              App_view isDark loading_state = Ok v
              /\ skeletons_of (grid v) = six
              /\ cards_of (grid v) = [])
        /\ (forall isDark a v, In a (states s) -> loading a = true ->
            App_view isDark a = Ok v ->
            skeletons_of (grid v) = six /\ cards_of (grid v) = [])
        /\ (forall isDark,
              (exists v, App_view isDark mid = Ok v)
              \/ App_view isDark mid = Throw ReactError)).
Proof.
  split; [reflexivity |].
  split. { intros d. destruct (empty_view d None) as (v & V & _ & G & _). eauto. }
  pose proof after_fetch_eq as E. cbv zeta in E.
  set (o := network (recommend_request env)) in *.
  eexists _, (settled_state (fetched o) true), (settled_state (fetched o) false).
  split; [exact E |]. unfold states. simpl.
  split; [reflexivity |]. split; [reflexivity |]. split; [reflexivity |].
  split; [reflexivity |].
  split. { destruct (fetched o); reflexivity. }
  split. { destruct (fetched o); simpl; eauto. }
  split. { intros F. now rewrite (fetched_failed o F). }
  split.
  { intros its R. destruct (fetch_failed o) eqn:F; [| reflexivity].
    rewrite (fetched_failed o F) in R. discriminate. }
  split.
  { intros d.
    destruct (loading_view d loading_state _ eq_refl eq_refl eq_refl)
      as (v & V & _ & H). eauto. }
  split.
  { intros d a v _ L V. exact (loading_view_inv d a v L V). }
  intros d. destruct (length_of_fetched o true) as [len G].
  unfold App_view, child.
  replace (loading (settled_state (fetched o) true)) with true
    by (now destruct (fetched o)).
  simpl. rewrite G. simpl. destruct (valid_child len); simpl; eauto.
Qed.

(** C5 (as amended). For every response with a status in 200..299 whose
    body is neither [null] nor [undefined] and has no [items] field, or a
    falsy value in it, the view goes to Ready with no items: no banner,
    no skeleton, no card, a count of zero. *)
Theorem C5_missing_items_is_ready_empty (st : Z) (body : jsval) :
  network (recommend_request env) = HttpResponse st body ->
  200 <= st < 300 ->
  no_items body = true ->
  nullish_body body = false ->
  exists s,
    after_fetch env network = (Ok tt, s)
    /\ now s = {| items := JArr []; loading := false; error := None |}
    /\ view_state (now s) = Ready (JArr [])
    /\ (forall isDark, exists v,
          App_view isDark (now s) = Ok v
          /\ banner v = None /\ grid v = []
          /\ text_content (total_items v) = "Total items: 0").
Proof.
  intros N S H Hn.
  pose proof after_fetch_eq as E. cbv zeta in E.
  destruct (items_of_lenient_body body H Hn) as (its & G & T).
  assert (F : fetched (network (recommend_request env)) = Ok (JArr [])).
  { rewrite N. unfold fetched, axios_settle.
    replace ((200 <=? st) && (st <? 300)) with true
      by (symmetry; apply andb_true_iff; split;
          [apply Z.leb_le | apply Z.ltb_lt]; lia).
    simpl. rewrite G. simpl. unfold js_or. now rewrite T. }
  rewrite F in E. simpl settled_state in E.
  eexists. split; [exact E |]. simpl now.
  split; [reflexivity |]. split; [reflexivity |].
  intros d. destruct (empty_view d None) as (v & V & B & G' & T'). eauto.
Qed.

(** C8 (as amended). The effect sends a single request, a GET to
    [{base}/recommend/top?limit=8] with the limit fixed at 8, where
    [base] is the variable [VITE_API_BASE] when it is set to a string
    that is not empty and [http://localhost:4000] otherwise; no other
    variable is read. *)
Theorem C8_single_get_to_configured_base :
  (exists s, after_fetch env network = (Ok tt, s)
             /\ sent s = [recommend_request env])
  /\ method (recommend_request env) = GET
  /\ url (recommend_request env) = API env +:+ "/recommend/top?limit=8"
  /\ (forall base, env !! "VITE_API_BASE" = Some base -> base <> "" ->
        API env = base)
  /\ (env !! "VITE_API_BASE" = None \/ env !! "VITE_API_BASE" = Some "" ->
        API env = "http://localhost:4000")
  /\ (forall env' : gmap string string,
        env' !! "VITE_API_BASE" = env !! "VITE_API_BASE" ->
        recommend_request env' = recommend_request env).
Proof.
  split.
  { pose proof after_fetch_eq as E. cbv zeta in E.
    eexists. split; [exact E | reflexivity]. }
  split; [reflexivity |]. split; [reflexivity |]. split; [| split].
  - intros base E N. rewrite API_eq, E.
    destruct (String.eqb_spec base ""); [contradiction | reflexivity].
  - intros E. rewrite API_eq. destruct E as [-> | ->]; reflexivity.
  - intros env' E. unfold recommend_request. now rewrite !API_eq, E.
Qed.

End FetchEffect.

Lemma C1_failed_fetch_shows_banner_witness :
  (exists s, after_fetch ∅ offline = (Ok tt, s)
             /\ view_state (now s) = Error "Unable to load recommendations right now")
  /\ (exists s, after_fetch ∅ (answering 500 (JObj [])) = (Ok tt, s)
                /\ view_state (now s) = Error "Unable to load recommendations right now").
Proof.
  split.
  - destruct (C1_failed_fetch_shows_banner ∅ offline) as (s & E & _ & V & _);
      [reflexivity | eauto].
  - destruct (C1_failed_fetch_shows_banner ∅ (answering 500 (JObj [])))
      as (s & E & _ & V & _); [reflexivity | eauto].
Defined.

(** C2, the claim as written fails: the state the component is mounted in
    is not Loading, and its render shows no skeleton. *)
Lemma C2_counterexample :
  loading (now mounted) = false
  /\ view_state (now mounted) <> Loading
  /\ exists v, App_view (JBool false) (now mounted) = Ok v
               /\ skeletons_of (grid v) = [].
Proof.
  split; [reflexivity |]. split; [discriminate |].
  eexists. split; reflexivity.
Qed.

Lemma C5_missing_items_is_ready_empty_witness :
  exists s,
    after_fetch ∅ (answering 200 (JObj [("count", JNum (lit 0 0))])) = (Ok tt, s)
    /\ view_state (now s) = Ready (JArr []).
Proof.
  destruct (C5_missing_items_is_ready_empty ∅
              (answering 200 (JObj [("count", JNum (lit 0 0))]))
              200 (JObj [("count", JNum (lit 0 0))]))
    as (s & E & _ & V & _); [reflexivity | lia | reflexivity | reflexivity |].
  eauto.
Defined.

(** C5, the claim as written fails: a response with status 200 whose
    body is [null] has no [items] field, and the view goes to Error. *)
Lemma C5_counterexample :
  no_items JNull = true
  /\ fetch_failed (answering 200 JNull (recommend_request ∅)) = false
  /\ exists s, after_fetch ∅ (answering 200 JNull) = (Ok tt, s)
               /\ view_state (now s)
                  = Error "Unable to load recommendations right now".
Proof.
  split; [reflexivity |]. split; [reflexivity |].
  eexists. split; reflexivity.
Qed.

(** C8, the claim as written fails: with [API_BASE] set the request
    still goes to the default base. *)
Lemma C8_counterexample :
  misnamed_env !! "API_BASE" = Some "https://api.example.com"
  /\ url (recommend_request misnamed_env)
     = "http://localhost:4000/recommend/top?limit=8"
  /\ url (recommend_request misnamed_env)
     <> "https://api.example.com/recommend/top?limit=8".
Proof.
  split; [reflexivity |].
  assert (E : url (recommend_request misnamed_env)
              = "http://localhost:4000/recommend/top?limit=8") by reflexivity.
  split; [exact E |]. rewrite E. discriminate.
Qed.

(** ** The end-to-end scenarios of the specification *)

Example scenario_one_item :
  exists s v c,
    after_fetch ∅ (answering 200 (JObj [("items", JArr [js_of_Item oat_bar])]))
    = (Ok tt, s)
    /\ App_view (JBool false) (now s) = Ok v
    /\ banner v = None
    /\ grid v = [Article c]
    /\ card_title c = JStr "Oat Bar"
    /\ text_content <$> discount_span (price_tag c) = Some "-10%"
    /\ text_content <$> save_span c = Some "Save 10%"
    /\ text_content (calories_span c) = "150"
    /\ text_content (protein_span c) = "8 g"
    /\ text_content (price_span (price_tag c)) = "$2.50"
    /\ text_content (total_items v) = "Total items: 1".
Proof.
  eexists _, _, _. split; [vm_compute; reflexivity |].
  split; [vm_compute; reflexivity |].
  repeat split; vm_compute; reflexivity.
Qed.

Example scenario_empty_list :
  exists s v,
    after_fetch ∅ (answering 200 (JObj [("items", JArr [])])) = (Ok tt, s)
    /\ App_view (JBool false) (now s) = Ok v
    /\ banner v = None /\ grid v = []
    /\ text_content (total_items v) = "Total items: 0".
Proof.
  eexists _, _. split; [vm_compute; reflexivity |].
  split; [vm_compute; reflexivity |]. repeat split.
Qed.

(* ===================================================================== *)
(** * Further properties of the component *)
(* ===================================================================== *)

(** ** The grid of the Ready state *)

Lemma fetched_success (st : Z) (body : jsval) :
  success_status st = true ->
  fetched (HttpResponse st body)
  = let! its := get body "items" in Ok (js_or its (JArr [])).
Proof.
  unfold success_status, fetched, axios_settle. intros ->. reflexivity.
Qed.

Lemma success_status_iff (st : Z) : success_status st = true <-> 200 <= st < 300.
Proof.
  unfold success_status. rewrite andb_true_iff, Z.leb_le, Z.ltb_lt. tauto.
Qed.

Lemma card_split (p : jsval) (c : CardView) :
  card p = Ok c -> exists el, card_element p = Ok el /\ render_card el = Ok c.
Proof.
  unfold card. destruct (card_element p) as [el | e]; simpl; [eauto | discriminate].
Qed.

(** The cards of a list of well-typed items: one for each, in order. *)
Lemma cards_of_items (l : list Item) :
  exists els cards,
    mapM card_element (map js_of_Item l) = Ok els
    /\ mapM render_card els = Ok cards
    /\ Forall2 (fun it c => card (js_of_Item it) = Ok c) l cards
    /\ map card_key cards = map (fun it => JStr (id it)) l
    /\ map card_title cards = map (fun it => JStr (title it)) l.
Proof.
  induction l as [| it l (els & cards & M & R & F & K & T)].
  - exists [], []. repeat split; constructor.
  - destruct (card_total it) as [c C].
    destruct (card_split _ c C) as (el & El & Rc).
    exists (el :: els), (c :: cards). cbn [map mapM].
    rewrite El, M, Rc, R. cbn [bind].
    split; [reflexivity |]. split; [reflexivity |]. split; [now constructor |].
    assert (Kc : card_key c = JStr (id it) /\ card_title c = JStr (title it)).
    { rewrite card_js_of_Item in C. unfold PriceTag, call_toFixed in C.
      destruct (toFixed (finalPrice it) 2); simpl in C; [| discriminate].
      inversion C. auto. }
    destruct Kc as [-> ->]. now rewrite K, T.
Qed.

(** ** [mapM] over a list *)

Lemma mapM_throw_from {A B} (f : A -> Result B) (l : list A) (e : exn) :
  mapM f l = Throw e -> exists x, In x l /\ f x = Throw e.
Proof.
  induction l as [| a l IH]; simpl; [discriminate |].
  destruct (f a) as [b | e0] eqn:Fa; simpl.
  - destruct (mapM f l) as [bs | e1]; simpl; [discriminate |].
    intros E. inversion E; subst. destruct (IH eq_refl) as (x & I & Fx). eauto.
  - intros E. inversion E; subst. eauto.
Qed.

Lemma mapM_throw_exists {A B} (f : A -> Result B) (l : list A) (x : A) (e : exn) :
  In x l -> f x = Throw e -> exists e', mapM f l = Throw e'.
Proof.
  induction l as [| a l IH]; intros I Fx; [destruct I |]. simpl.
  destruct (f a) as [b | e0] eqn:Fa; simpl; [| eauto].
  destruct I as [-> | I]; [congruence |].
  destruct (IH I Fx) as [e' ->]. simpl. eauto.
Qed.

Lemma mapM_In {A B} (f : A -> Result B) (l : list A) (ys : list B) (x : A) :
  mapM f l = Ok ys -> In x l -> exists y, In y ys /\ f x = Ok y.
Proof.
  revert ys. induction l as [| a l IH]; intros ys M I; [destruct I |].
  simpl in M. destruct (f a) as [b | e0] eqn:Fa; simpl in M; [| discriminate].
  destruct (mapM f l) as [bs | e1]; simpl in M; [| discriminate].
  inversion M; subst. destruct I as [-> | I].
  - exists b. split; [now left | exact Fa].
  - destruct (IH bs eq_refl I) as (y & Iy & Fy). exists y. split; [now right | exact Fy].
Qed.

Lemma mapM_In_inv {A B} (f : A -> Result B) (l : list A) (ys : list B) (y : B) :
  mapM f l = Ok ys -> In y ys -> exists x, In x l /\ f x = Ok y.
Proof.
  revert ys. induction l as [| a l IH]; intros ys M I; simpl in M.
  - inversion M; subst. destruct I.
  - destruct (f a) as [b | e0] eqn:Fa; simpl in M; [| discriminate].
    destruct (mapM f l) as [bs | e1]; simpl in M; [| discriminate].
    inversion M; subst. destruct I as [-> | I].
    + exists a. split; [now left | exact Fa].
    + destruct (IH bs eq_refl I) as (x & Ix & Fx). exists x. split; [now right | exact Fx].
Qed.

(** ** Elements that cannot be rendered *)

(** Reading the props throws exactly on [null] and [undefined]. *)
Lemma card_element_nullish (p : jsval) :
  (nullish_body p = true -> card_element p = Throw TypeError)
  /\ (nullish_body p = false ->
      exists el, card_element p = Ok el
                 /\ get p "finalPrice" = Ok (el_price el)).
Proof.
  unfold card_element.
  destruct p as [| | b | n | s | l | fs]; simpl; split; intros H;
    try discriminate; try reflexivity;
    try (eexists; split; reflexivity).
  all: destruct (String.eqb _ _); eexists; split; reflexivity.
Qed.

Lemma card_element_throws (p : jsval) (e : exn) :
  card_element p = Throw e -> e = TypeError.
Proof.
  destruct (card_element_nullish p) as [N O].
  destruct (nullish_body p).
  - rewrite N by reflexivity. intros E. now inversion E.
  - destruct (O eq_refl) as (el & -> & _). discriminate.
Qed.

(** React refuses a child or [PriceTag] throws: nothing else leaves the
    rendering of an element. *)
Lemma render_card_throws (el : CardElement) (e : exn) :
  render_card el = Throw e ->
  (e = ReactError
   /\ valid_child (el_title el) && valid_child (el_calories el)
      && valid_child (el_protein el) = false)
  \/ (e = TypeError /\ is_number (el_price el) = false).
Proof.
  unfold render_card, child.
  destruct (valid_child (el_title el)); simpl;
    [| intros E; inversion E; left; auto].
  destruct (valid_child (el_calories el)); simpl;
    [| intros E; inversion E; left; auto].
  destruct (valid_child (el_protein el)); simpl;
    [| intros E; inversion E; left; auto].
  unfold PriceTag, call_toFixed.
  destruct (el_price el) as [| | b | x | s | l | fs];
    try solve [simpl; intros E; inversion E; right; auto].
  destruct (toFixed_2_total x) as [r ->]. simpl. discriminate.
Qed.

Lemma render_card_no_price (el : CardElement) :
  is_number (el_price el) = false -> exists e, render_card el = Throw e.
Proof.
  intros N. unfold render_card, child.
  destruct (valid_child (el_title el)); simpl; [| eauto].
  destruct (valid_child (el_calories el)); simpl; [| eauto].
  destruct (valid_child (el_protein el)); simpl; [| eauto].
  unfold PriceTag, call_toFixed.
  destruct (el_price el); simpl in *; try discriminate; eauto.
Qed.

(** The effect after an answer with a status in 200..299 and a readable
    body. *)
Lemma after_successful_fetch
    (env : gmap string string) (network : Request -> HttpOutcome)
    (st : Z) (body its : jsval) :
  network (recommend_request env) = HttpResponse st body ->
  200 <= st < 300 ->
  get body "items" = Ok its ->
  exists s, after_fetch env network = (Ok tt, s)
            /\ now s = ready_state (js_or its (JArr [])).
Proof.
  intros N S G. pose proof (after_fetch_eq env network) as E. cbv zeta in E.
  rewrite N, fetched_success, G in E by now apply success_status_iff.
  eexists. split; [exact E | reflexivity].
Qed.

(** X1. When the service answers with a list of items, the view is Ready
    with exactly that list: the grid holds one card for each item, in the
    order of the answer and however many there are (the limit of 8 is
    not enforced on this side), every card being the card of its item,
    with no banner and no skeleton, and the summary counts the items. *)
Theorem X1_ready_cards_in_service_order
    (env : gmap string string) (network : Request -> HttpOutcome)
    (st : Z) (body : jsval) (l : list Item) :
  network (recommend_request env) = HttpResponse st body ->
  200 <= st < 300 ->
  get body "items" = Ok (JArr (map js_of_Item l)) ->
  exists s,
    after_fetch env network = (Ok tt, s)
    /\ view_state (now s) = Ready (JArr (map js_of_Item l))
    /\ forall isDark, exists v cards,
         App_view isDark (now s) = Ok v
         /\ banner v = None
         /\ grid v = map Article cards
         /\ Forall2 (fun it c => card (js_of_Item it) = Ok c) l cards
         /\ map card_key cards = map (fun it => JStr (id it)) l
         /\ total_items v
            = [JStr "Total items: ";
               JNum (Finite (inject_Z (Z.of_nat (List.length l))))].
Proof.
  intros N S G.
  destruct (after_successful_fetch env network st body _ N S G) as (s & E & Now).
  exists s. split; [exact E |]. rewrite Now. split; [reflexivity |].
  intros d. destruct (cards_of_items l) as (els & cards & M & Rc & F & K & _).
  unfold App_view, ready_state, js_or, child.
  cbn [truthy items loading error negb call_map get String.eqb Ascii.eqb Bool.eqb
       valid_child bind].
  rewrite M. cbn [bind]. rewrite Rc. cbn [bind].
  eexists _, cards. split; [reflexivity |]. simpl.
  rewrite length_map. auto.
Qed.

Lemma X1_ready_cards_in_service_order_witness :
  exists s,
    after_fetch ∅ (answering 200 (items_body [oat_bar; rice_cake])) = (Ok tt, s)
    /\ view_state (now s) = Ready (JArr (map js_of_Item [oat_bar; rice_cake]))
    /\ exists v cards,
         App_view (JBool true) (now s) = Ok v
         /\ grid v = map Article cards
         /\ map card_key cards = [JStr "1"; JStr "7"].
Proof.
  destruct (X1_ready_cards_in_service_order ∅
              (answering 200 (items_body [oat_bar; rice_cake]))
              200 (items_body [oat_bar; rice_cake]) [oat_bar; rice_cake])
    as (s & E & R & V); [reflexivity | lia | reflexivity |].
  destruct (V (JBool true)) as (v & cards & Ev & _ & G & _ & K & _).
  exists s. split; [exact E |]. split; [exact R |]. exists v, cards. auto.
Defined.

(** X2. On the card of every item the calories and the protein read the
    placeholder glyph exactly when the field is absent; a value that is
    present is shown as the number it is, zero included, and the protein
    is followed by the unit in both cases. *)
Theorem X2_nutrition_placeholders (it : Item) :
  exists c,
    card (js_of_Item it) = Ok c
    /\ text_content (calories_span c)
       = match calories it with
         | Some x => Number_toString x
         | None => "—"
         end
    /\ text_content (protein_span c)
       = match proteinGrams it with
         | Some x => Number_toString x +:+ " g"
         | None => "— g"
         end
    /\ (calories it = Some (Finite 0) -> text_content (calories_span c) = "0")
    /\ (proteinGrams it = Some (Finite 0) -> text_content (protein_span c) = "0 g").
Proof.
  destruct (card_total it) as [c C]. exists c. split; [exact C |].
  rewrite card_js_of_Item in C. unfold PriceTag, call_toFixed in C.
  destruct (toFixed (finalPrice it) 2); simpl in C; [| discriminate].
  inversion C; subst; clear C. cbn [calories_span protein_span].
  assert (Cal : text_content [nullish (field (calories it)) (JStr "—")]
                = match calories it with
                  | Some x => Number_toString x
                  | None => "—"
                  end).
  { destruct (calories it); cbn [field nullish text_content];
      [apply append_empty_r | reflexivity]. }
  assert (Pro : text_content [nullish (field (proteinGrams it)) (JStr "—"); JStr " g"]
                = match proteinGrams it with
                  | Some x => Number_toString x +:+ " g"
                  | None => "— g"
                  end).
  { destruct (proteinGrams it); reflexivity. }
  rewrite Cal, Pro. repeat split; intros ->; reflexivity.
Qed.

(** X3. A value of [items] that is truthy but not an array is stored as
    it is: the effect ends in the Ready state without an error, and the
    render of that state throws a [TypeError], which the [try] block of
    the effect is no longer there to catch. *)
Theorem X3_truthy_non_array_items_break_render
    (env : gmap string string) (network : Request -> HttpOutcome)
    (st : Z) (body its : jsval) :
  network (recommend_request env) = HttpResponse st body ->
  200 <= st < 300 ->
  get body "items" = Ok its ->
  truthy its = true ->
  (forall l, its <> JArr l) ->
  exists s,
    after_fetch env network = (Ok tt, s)
    /\ now s = {| items := its; loading := false; error := None |}
    /\ forall isDark, App_view isDark (now s) = Throw TypeError.
Proof.
  intros N S G T A.
  destruct (after_successful_fetch env network st body its N S G) as (s & E & Now).
  unfold js_or in Now. rewrite T in Now.
  exists s. split; [exact E |]. split; [exact Now |].
  intros d. rewrite Now. unfold App_view, ready_state. simpl.
  destruct its; try reflexivity. now destruct (A elems).
Qed.

Lemma X3_truthy_non_array_items_break_render_witness :
  exists s,
    after_fetch ∅ (answering 200 (JObj [("items", JStr "none")])) = (Ok tt, s)
    /\ App_view (JBool false) (now s) = Throw TypeError.
Proof.
  destruct (X3_truthy_non_array_items_break_render ∅
              (answering 200 (JObj [("items", JStr "none")]))
              200 (JObj [("items", JStr "none")]) (JStr "none"))
    as (s & E & _ & V);
    [reflexivity | lia | reflexivity | reflexivity | discriminate |].
  exists s. split; [exact E | apply V].
Defined.

Lemma grid_throws (isDark : jsval) (l : list jsval) (e : option string) (x : exn) :
  mapM card_element l = Throw x
  \/ (exists els, mapM card_element l = Ok els /\ mapM render_card els = Throw x) ->
  App_view isDark {| items := JArr l; loading := false; error := e |} = Throw x.
Proof.
  unfold App_view. cbn [items loading error negb call_map].
  intros [M | (els & M & R)]; rewrite M; cbn [bind]; [reflexivity |].
  cbn [get String.eqb Ascii.eqb Bool.eqb bind]. now rewrite R.
Qed.

(** X4. One element of [items] that is [null], [undefined] or without a
    numeric [finalPrice] keeps the whole grid from rendering, whatever
    the other elements are: the render throws, a [TypeError] or React's
    error for an object among the children.  It is a [TypeError] when the
    element is [null] or [undefined], thrown in the body of [App] before
    React renders anything, and also when no element has an object among
    its title, calories and protein.  While the loading flag is up the
    same cells render, since the elements are not looked at. *)
Theorem X4_one_bad_element_breaks_grid
    (l : list jsval) (p : jsval) (e : option string) (isDark : jsval) :
  In p l ->
  unrenderable p = true ->
  (exists x,
     App_view isDark {| items := JArr l; loading := false; error := e |} = Throw x
     /\ (x = TypeError \/ x = ReactError))
  /\ (nullish_body p = true ->
      App_view isDark {| items := JArr l; loading := false; error := e |}
      = Throw TypeError)
  /\ (forallb plain_children l = true ->
      App_view isDark {| items := JArr l; loading := false; error := e |}
      = Throw TypeError)
  /\ exists v,
       App_view isDark {| items := JArr l; loading := true; error := e |} = Ok v
       /\ cards_of (grid v) = [] /\ skeletons_of (grid v) = six.
Proof.
  intros I U.
  assert (Load : exists v,
            App_view isDark {| items := JArr l; loading := true; error := e |} = Ok v
            /\ cards_of (grid v) = [] /\ skeletons_of (grid v) = six).
  { destruct (loading_view isDark {| items := JArr l; loading := true; error := e |}
                _ eq_refl eq_refl eq_refl) as (v & V & _ & S & C).
    eauto. }
  destruct (mapM card_element l) as [els | x] eqn:M.
  - destruct (mapM_In _ _ _ p M I) as (el & Iel & El).
    destruct (card_element_nullish p) as [Null Obj].
    assert (Np : nullish_body p = false).
    { destruct (nullish_body p); [| reflexivity].
      rewrite Null in El by reflexivity. discriminate. }
    destruct (Obj Np) as (el' & El' & Price).
    rewrite El in El'. inversion El'; subst el'; clear El'.
    assert (Num : is_number (el_price el) = false).
    { unfold unrenderable in U. rewrite Price in U. now apply negb_true_iff. }
    destruct (render_card_no_price el Num) as [x0 R0].
    destruct (mapM_throw_exists render_card els el x0 Iel R0) as [x R].
    assert (V : App_view isDark {| items := JArr l; loading := false; error := e |}
                = Throw x) by (apply grid_throws; eauto).
    destruct (mapM_throw_from _ _ _ R) as (el1 & I1 & R1).
    destruct (render_card_throws el1 x R1) as [[-> Bad] | [-> _]].
    + split; [eauto |]. split; [congruence |]. split; [| exact Load].
      intros Plain. exfalso.
      destruct (mapM_In_inv _ _ _ el1 M I1) as (q & Iq & Eq).
      rewrite forallb_forall in Plain. specialize (Plain q Iq).
      unfold plain_children in Plain. rewrite Eq in Plain. congruence.
    + split; [eauto |]. split; [congruence |]. split; [auto | exact Load].
  - destruct (mapM_throw_from _ _ _ M) as (q & _ & Eq).
    rewrite (card_element_throws q x Eq) in *.
    assert (V : App_view isDark {| items := JArr l; loading := false; error := e |}
                = Throw TypeError) by (apply grid_throws; auto).
    split; [eauto |]. split; [auto |]. split; [auto | exact Load].
Qed.

Lemma X4_one_bad_element_breaks_grid_witness :
  App_view (JBool false)
    {| items := JArr [js_of_Item rice_cake; JObj [("title", JStr "Tofu")]];
       loading := false; error := None |}
  = Throw TypeError.
Proof.
  destruct (X4_one_bad_element_breaks_grid
              [js_of_Item rice_cake; JObj [("title", JStr "Tofu")]]
              (JObj [("title", JStr "Tofu")]) None (JBool false))
    as (_ & _ & Plain & _);
    [right; left; reflexivity | reflexivity |].
  apply Plain. reflexivity.
Defined.

(** Which exception it is depends on what comes first: the body of [App]
    reads every element before React renders any, and React goes through
    the cards in order. *)
Example bad_elements_known :
  App_view (JBool false)
    {| items := JArr [JObj [("id", JStr "1"); ("title", JObj []);
                            ("finalPrice", JNum (lit 1 0))];
                      JObj [("title", JStr "Tofu")]];
       loading := false; error := None |}
  = Throw ReactError
  /\ App_view (JBool false)
       {| items := JArr [JObj [("title", JObj [])]; JNull];
          loading := false; error := None |}
     = Throw TypeError
  /\ App_view (JBool false)
       {| items := JObj [("length", JObj [])]; loading := true; error := None |}
     = Throw ReactError
  /\ text_content [JArr [JNum (lit 1 0); JStr "x"]; JBool true; JNull] = "1x".
Proof. repeat split; vm_compute; reflexivity. Qed.

(** X5. [PriceTag] on any values: it throws, a [TypeError], exactly when
    the price is not a number, and otherwise shows the discount badge
    exactly for a discount that is a number greater than zero; a discount
    of another type, a numeric string included, shows no badge. *)
Theorem X5_PriceTag_on_any_values (price discount : jsval) :
  (PriceTag price discount = Throw TypeError <-> is_number price = false)
  /\ (is_number price = true ->
      exists tag,
        PriceTag price discount = Ok tag
        /\ ((exists children, discount_span tag = Some children)
            <-> exists x, discount = JNum x /\ gt x (Finite 0) = true)
        /\ (is_number discount = false -> discount_span tag = None)).
Proof.
  split.
  - destruct price as [| | b | x | s | l | fs]; simpl;
      try (split; reflexivity).
    unfold PriceTag, call_toFixed. destruct (toFixed_2_total x) as [r ->].
    simpl. split; discriminate.
  - destruct price as [| | b | x | s | l | fs]; try discriminate. intros _.
    unfold PriceTag, call_toFixed. destruct (toFixed_2_total x) as [r ->].
    simpl. eexists. split; [reflexivity |]. simpl. split.
    + destruct discount as [| | b | y | s | l | fs]; simpl;
        try (split; [intros [c E]; discriminate | intros (y & E & _); discriminate]).
      unfold positive_number. simpl.
      destruct (gt y (Finite 0)) eqn:G; split.
      * intros _. exists y. split; [reflexivity | exact G].
      * intros _. eexists. reflexivity.
      * intros [c E]. discriminate.
      * intros (z & E & G'). inversion E; subst. congruence.
    + destruct discount; try reflexivity. discriminate.
Qed.

(** ** The states of the fetch *)

Lemma get_throws_iff (body : jsval) (k : string) :
  (exists e, get body k = Throw e) <-> nullish_body body = true.
Proof.
  destruct body as [| | b | n | s | l | fs]; simpl;
    try (split; [intros [e E]; discriminate | discriminate]);
    try (split; [reflexivity | eauto]).
  all: destruct (String.eqb k "length");
    (split; [intros [e E]; discriminate | discriminate]).
Qed.

Lemma no_cards_without_items (isDark : jsval) (a : AppState) (v : View) :
  items a = JArr [] -> App_view isDark a = Ok v -> cards_of (grid v) = [].
Proof.
  destruct a as [its load err]. simpl. intros ->. unfold App_view. simpl.
  destruct load; simpl; intros E; inversion E; reflexivity.
Qed.

Lemma banner_needs_error (isDark : jsval) (a : AppState) (v : View) :
  error a = None -> App_view isDark a = Ok v -> banner v = None.
Proof.
  destruct a as [its load err]. simpl. intros ->. unfold App_view. simpl.
  destruct (if negb load then call_map its card_element else Ok []); simpl;
    [| discriminate].
  destruct (get its "length"); simpl; [| discriminate].
  destruct (mapM render_card _); simpl; [| discriminate].
  destruct (child _); simpl; [| discriminate].
  intros E. now inversion E.
Qed.

(** X6. In no state the component goes through do an error and items
    stand together: wherever the error is set it is the one message and
    the items are empty, so no render shows the banner above cards. *)
Theorem X6_no_banner_with_cards
    (env : gmap string string) (network : Request -> HttpOutcome) :
  exists s,
    after_fetch env network = (Ok tt, s)
    /\ forall a, In a (states s) ->
         (error a = None
          \/ (error a = Some failure_message /\ items a = JArr []))
         /\ forall isDark v,
              App_view isDark a = Ok v -> banner v <> None ->
              cards_of (grid v) = [].
Proof.
  pose proof (after_fetch_eq env network) as E. cbv zeta in E.
  eexists. split; [exact E |]. unfold states. simpl.
  assert (Inv : forall a,
            error a = None \/ (error a = Some failure_message /\ items a = JArr []) ->
            (error a = None \/ (error a = Some failure_message /\ items a = JArr []))
            /\ forall isDark v,
                 App_view isDark a = Ok v -> banner v <> None ->
                 cards_of (grid v) = []).
  { intros a H. split; [exact H |]. intros d v V B. destruct H as [N | [_ I]].
    - now rewrite (banner_needs_error d a v N V) in B.
    - exact (no_cards_without_items d a v I V). }
  intros a [<- | [<- | [<- | [<- | [<- | []]]]]]; apply Inv;
    try (left; reflexivity);
    destruct (fetched (network (recommend_request env))); simpl; auto.
Qed.

(** X7. How the fetch ends, exactly: in Error when the request failed,
    by the network or by a status outside 200..299, and also when a
    successful answer has a body that is [null] or [undefined]; in Ready
    in every other case, with the [items] of the body when that value is
    truthy and with the empty list otherwise. *)
Theorem X7_outcome_of_the_fetch
    (env : gmap string string) (network : Request -> HttpOutcome) :
  exists s,
    after_fetch env network = (Ok tt, s)
    /\ (view_state (now s) = Error failure_message
        <-> fetch_failed (network (recommend_request env)) = true
            \/ exists st body,
                 network (recommend_request env) = HttpResponse st body
                 /\ nullish_body body = true)
    /\ (forall st body its,
          network (recommend_request env) = HttpResponse st body ->
          fetch_failed (HttpResponse st body) = false ->
          get body "items" = Ok its ->
          view_state (now s) = Ready (if truthy its then its else JArr [])).
Proof.
  pose proof (after_fetch_eq env network) as E. cbv zeta in E.
  eexists. split; [exact E |]. simpl now.
  destruct (network (recommend_request env)) as [| st body] eqn:N.
  - split; [split; [now left | reflexivity] | intros ? ? ? H; discriminate].
  - destruct (success_status st) eqn:S.
    + rewrite fetched_success by exact S.
      assert (F : fetch_failed (HttpResponse st body) = false)
        by (unfold fetch_failed; fold (success_status st); now rewrite S).
      destruct (get body "items") as [its | e] eqn:G; simpl.
      * split.
        -- split; [discriminate |]. intros [H | (st' & body' & H & Nb)].
           ++ simpl in F, H. congruence.
           ++ inversion H; subst.
              apply (get_throws_iff body' "items") in Nb as [e' G']. congruence.
        -- intros st' body' its' H _ G'. inversion H; subst.
           rewrite G in G'. now inversion G'.
      * split.
        -- split; [| reflexivity]. intros _. right. exists st, body.
           split; [reflexivity |]. apply (get_throws_iff body "items"). eauto.
        -- intros st' body' its' H _ G'. inversion H; subst. congruence.
    + assert (F : fetch_failed (HttpResponse st body) = true)
        by (unfold fetch_failed; fold (success_status st); now rewrite S).
      rewrite (fetched_failed _ F). simpl. split.
      * split; [now left | reflexivity].
      * intros st' body' its' H F'. inversion H; subst.
        simpl in F, F'. congruence.
Qed.

(** ** The theme across effects, clicks and page loads *)

Lemma reachable_consistent (t : Theme) :
  theme_reachable t -> theme_consistent t.
Proof.
  intros R. destruct (reachable_after_effect t R) as (b0 & u & E).
  destruct t as [b d]. exact (effect_consistent d b0 b u E).
Qed.

Lemma theme_name_toggle_toggle (d : jsval) :
  theme_name (toggle (toggle d)) = theme_name d.
Proof. unfold theme_name, toggle. simpl. now destruct (truthy d). Qed.

(** X8. Applying a theme is idempotent: with working storage, running
    the effect a second time for the same state changes nothing.  And
    applying dark and then light leaves no marker behind. *)
Theorem X8_effect_idempotent (d : jsval) (b : Browser) :
  storage b = StorageAvailable ->
  useDarkMode_effect d (snd (useDarkMode_effect d b))
  = (Ok tt, snd (useDarkMode_effect d b))
  /\ "dark" ∉ classList
               (snd (useDarkMode_effect (JBool false)
                       (snd (useDarkMode_effect (JBool true) b)))).
Proof.
  intros S. split.
  - rewrite (effect_completes d b S). simpl snd.
    rewrite effect_completes by reflexivity. simpl.
    f_equal. f_equal.
    + apply insert_insert_eq.
    + destruct (truthy d); apply set_eq; intros c;
        rewrite ?elem_of_union, ?elem_of_difference; tauto.
  - rewrite !effect_marker. simpl.
    rewrite elem_of_difference, elem_of_singleton. tauto.
Qed.

Lemma X8_effect_idempotent_witness :
  useDarkMode_effect (JBool true)
    (snd (useDarkMode_effect (JBool true) (fresh_browser false)))
  = (Ok tt, snd (useDarkMode_effect (JBool true) (fresh_browser false))).
Proof.
  apply (X8_effect_idempotent (JBool true) (fresh_browser false)). reflexivity.
Defined.

(** X9. The effect touches nothing but its own key and its own class:
    every other key of storage keeps its value, every other class of the
    document root stays as it was, and this also when the write throws. *)
Theorem X9_effect_leaves_the_rest (d : jsval) (b : Browser) :
  storage (snd (useDarkMode_effect d b)) = storage b
  /\ matchMedia (snd (useDarkMode_effect d b)) = matchMedia b
  /\ (forall k, k <> "theme" ->
        localStorage (snd (useDarkMode_effect d b)) !! k = localStorage b !! k)
  /\ (forall c, c <> "dark" ->
        (c ∈ classList (snd (useDarkMode_effect d b)) <-> c ∈ classList b)).
Proof.
  assert (Marker : forall c, c <> "dark" ->
            (c ∈ classList (snd (useDarkMode_effect d b)) <-> c ∈ classList b)).
  { intros c N. rewrite effect_marker.
    destruct (truthy d);
      rewrite ?elem_of_union, ?elem_of_difference, elem_of_singleton; tauto. }
  destruct (storage b) eqn:S.
  - pose proof (effect_completes d b S) as E.
    split; [rewrite E; simpl; congruence |].
    split; [rewrite E; reflexivity |].
    split; [| exact Marker].
    intros k N. rewrite E. simpl. now apply lookup_insert_ne.
  - destruct (effect_throws d b ltac:(congruence)) as [e T].
    split; [rewrite T; simpl; congruence |].
    split; [rewrite T; reflexivity |].
    split; [| exact Marker].
    intros k N. rewrite T. reflexivity.
  - destruct (effect_throws d b ltac:(congruence)) as [e T].
    split; [rewrite T; simpl; congruence |].
    split; [rewrite T; reflexivity |].
    split; [| exact Marker].
    intros k N. rewrite T. reflexivity.
Qed.

(** X10. Two clicks on the toggle bring a mounted theme back: the state
    is dark again exactly if it was, and storage and the document root
    are exactly as before the first click. *)
Theorem X10_two_clicks_restore (t : Theme) :
  theme_reachable t ->
  exists d1 b1 d2 b2,
    theme_click t = (Ok d1, b1)
    /\ theme_click {| browser := b1; isDark := d1 |} = (Ok d2, b2)
    /\ truthy d1 = negb (truthy (isDark t))
    /\ truthy d2 = truthy (isDark t)
    /\ b2 = browser t.
Proof.
  intros R.
  pose proof (reachable_storage_available t R) as S.
  destruct (reachable_consistent t R) as [Stored Marker].
  destruct t as [b d]. simpl in *.
  destruct (theme_click_completes {| browser := b; isDark := d |} S)
    as (b1 & C1 & S1). simpl in C1.
  destruct (theme_click_completes {| browser := b1; isDark := toggle d |} S1)
    as (b2 & C2 & _). simpl in C2.
  exists (toggle d), b1, (toggle (toggle d)), b2.
  split; [exact C1 |]. split; [exact C2 |].
  split; [reflexivity |]. split; [simpl; now destruct (truthy d) |].
  unfold theme_click in C1, C2. simpl in C1, C2.
  rewrite (effect_completes (toggle d) b S) in C1. inversion C1; subst b1.
  rewrite effect_completes in C2 by reflexivity. inversion C2; subst b2.
  clear C1 C2 S1. simpl.
  destruct b as [st ls cl mm]. simpl in *. subst st. f_equal.
  - rewrite insert_insert_eq, theme_name_toggle_toggle. now apply insert_id.
  - unfold toggle. simpl. destruct (truthy d); simpl.
    + assert (In : "dark" ∈ cl) by now apply Marker.
      apply set_eq. intros c. destruct (decide (c = "dark")) as [-> | N];
        rewrite elem_of_union, elem_of_difference, elem_of_singleton; tauto.
    + assert (Out : "dark" ∉ cl) by (intros H; apply Marker in H; discriminate).
      apply set_eq. intros c. destruct (decide (c = "dark")) as [-> | N];
        rewrite elem_of_difference, elem_of_union, elem_of_singleton; tauto.
Qed.

Lemma X10_two_clicks_restore_witness :
  exists d1 b1 d2 b2,
    theme_click {| browser := snd (theme_mount (fresh_browser true));
                   isDark := JBool true |} = (Ok d1, b1)
    /\ theme_click {| browser := b1; isDark := d1 |} = (Ok d2, b2)
    /\ b2 = snd (theme_mount (fresh_browser true)).
Proof.
  destruct (X10_two_clicks_restore
              {| browser := snd (theme_mount (fresh_browser true));
                 isDark := JBool true |})
    as (d1 & b1 & d2 & b2 & C1 & C2 & _ & _ & B).
  - apply (reach_mount (fresh_browser true)). reflexivity.
  - exists d1, b1, d2, b2. auto.
Defined.

(** X11. A theme that has been stored survives the next page load: in a
    new document, and whatever the system prefers by then, the hook
    resolves to the state of the earlier visit and mounts consistently;
    the preference of the system no longer has a say. *)
Theorem X11_stored_theme_survives_reload
    (t : Theme) (classes : gset string) (media : option (string -> bool)) :
  theme_reachable t ->
  useDarkMode_init (Window (revisit (browser t) classes media))
  = Ok (JBool (truthy (isDark t)))
  /\ exists b',
       theme_mount (revisit (browser t) classes media)
       = (Ok (JBool (truthy (isDark t))), b')
       /\ theme_consistent {| browser := b'; isDark := JBool (truthy (isDark t)) |}.
Proof.
  intros R.
  pose proof (reachable_storage_available t R) as S.
  destruct (reachable_consistent t R) as [Stored _].
  assert (I : useDarkMode_init (Window (revisit (browser t) classes media))
              = Ok (JBool (truthy (isDark t)))).
  { rewrite useDarkMode_init_readable by (simpl; congruence).
    simpl localStorage. rewrite Stored. unfold theme_name.
    now destruct (truthy (isDark t)). }
  split; [exact I |].
  unfold theme_mount. rewrite I.
  destruct (useDarkMode_effect (JBool (truthy (isDark t)))
              (revisit (browser t) classes media)) as [[u | e] b'] eqn:E.
  - exists b'. split; [reflexivity |]. exact (effect_consistent _ _ _ _ E).
  - rewrite effect_completes in E by exact S. discriminate.
Qed.

Lemma X11_stored_theme_survives_reload_witness :
  useDarkMode_init
    (Window (revisit (snd (theme_mount (fresh_browser true))) ∅
               (Some (fun _ => false))))
  = Ok (JBool true).
Proof.
  apply (X11_stored_theme_survives_reload
           {| browser := snd (theme_mount (fresh_browser true));
              isDark := JBool true |} ∅ (Some (fun _ => false))).
  apply (reach_mount (fresh_browser true)). reflexivity.
Defined.

(** X12. The theme reaches the element tree through the label of the
    toggle only: the label names the other theme, "Light" while dark and
    "Dark" while light, a click swaps it, and the banner, the grid and
    the summary are the same before and after. *)
Theorem X12_toggle_changes_only_label (d : jsval) (a : AppState) (v : View) :
  App_view d a = Ok v ->
  exists v',
    App_view (toggle d) a = Ok v'
    /\ toggle_label v = (if truthy d then "Light" else "Dark")
    /\ toggle_label v' = (if truthy d then "Dark" else "Light")
    /\ banner v' = banner v
    /\ grid v' = grid v
    /\ total_items v' = total_items v.
Proof.
  unfold App_view.
  destruct (if negb (loading a) then call_map (items a) card_element else Ok [])
    as [els | e]; simpl; [| discriminate].
  destruct (get (items a) "length") as [len | e]; simpl; [| discriminate].
  destruct (mapM render_card els) as [cards | e]; simpl; [| discriminate].
  destruct (child len) as [count | e]; simpl; [| discriminate].
  intros E. inversion E; subst; clear E. simpl.
  eexists. split; [reflexivity |]. simpl.
  destruct (truthy d); repeat split; reflexivity.
Qed.

Lemma X12_toggle_changes_only_label_witness :
  exists v v',
    App_view (JBool false) loading_state = Ok v
    /\ App_view (toggle (JBool false)) loading_state = Ok v'
    /\ toggle_label v = "Dark" /\ toggle_label v' = "Light"
    /\ grid v' = grid v.
Proof.
  destruct (X12_toggle_changes_only_label (JBool false) loading_state
              {| toggle_label := "Dark"; banner := None;
                 grid := map CardSkeleton six;
                 total_items := [JStr "Total items: "; JNum (Finite 0)] |})
    as (v' & V' & L & L' & _ & G & _); [reflexivity |].
  eexists _, v'. split; [reflexivity |]. auto.
Defined.

(** X13. On a first visit, with nothing stored and working storage, the
    mount follows the system: the state is its colour-scheme preference,
    "dark" or "light" is written accordingly and the marker set or
    removed; where [matchMedia] does not exist "light" is written. *)
Theorem X13_first_visit_follows_system (b : Browser) :
  storage b = StorageAvailable ->
  localStorage b !! "theme" = None ->
  exists b',
    theme_mount b = (Ok (os_preference b), b')
    /\ localStorage b' !! "theme"
       = Some (if truthy (os_preference b) then "dark" else "light")
    /\ ("dark" ∈ classList b' <-> truthy (os_preference b) = true)
    /\ (matchMedia b = None -> localStorage b' !! "theme" = Some "light").
Proof.
  intros S N. unfold theme_mount.
  rewrite useDarkMode_init_readable by congruence. rewrite N.
  destruct (useDarkMode_effect (os_preference b) b) as [[u | e] b'] eqn:E.
  - exists b'. split; [reflexivity |].
    destruct (effect_consistent _ _ _ _ E) as [Stored Marker]. simpl in *.
    split; [exact Stored |]. split; [exact Marker |].
    intros M. rewrite Stored. unfold os_preference. now rewrite M.
  - rewrite effect_completes in E by exact S. discriminate.
Qed.

Lemma X13_first_visit_follows_system_witness :
  exists b',
    theme_mount (fresh_browser false) = (Ok (JBool false), b')
    /\ localStorage b' !! "theme" = Some "light".
Proof.
  destruct (X13_first_visit_follows_system (fresh_browser false))
    as (b' & M & St & _); [reflexivity | reflexivity |].
  exists b'. split; [exact M | exact St].
Defined.
